(** * smart_thermostat: the controllers of [controllers.py]

    A shallow embedding of
    [custom_components/smart_thermostat/controllers.py]: the gain
    parameters ([PidParams]), the controller life cycle
    ([AbstractController]), the hysteresis controller
    ([SwitchController]) and the PID controller
    ([AbstractPidController]).

    Python objects are records, methods are functions in a small
    state/trace/exception monad ([Eff]): a method reads the host
    ([Env]), transforms [self], emits service calls and log records,
    and either returns or raises.  Attribute writes made before a
    [raise] stay visible, as in Python. *)

From Stdlib Require Import ZArith Bool List Ascii String Lia.
From Stdlib Require Import Floats.SpecFloat.
From stdpp Require Import base option gmap strings.

Set Default Proof Using "Type".
Local Open Scope string_scope.
Local Open Scope Z_scope.

(** ** Python values *)

Module Py.

(** A Python [float] is an IEEE 754 binary64 number. *)
Definition float : Type := spec_float.

Definition prec : Z := 53.
Definition emax : Z := 1024.

Definition fadd (x y : float) : float := SFadd prec emax x y.
Definition fsub (x y : float) : float := SFsub prec emax x y.
Definition fneg (x : float) : float := SFopp x.
Definition flt (x y : float) : bool := SFltb x y.
Definition fle (x y : float) : bool := SFleb x y.
Definition fge (x y : float) : bool := SFleb y x.
Definition feq (x y : float) : bool := SFeqb x y.

(** The literal [0]. *)
Definition zero : float := S754_zero false.

(** [m * 2 ^ e] rounded to binary64; exact for the literals used below. *)
Definition dyadic (m e : Z) : float := binary_normalize prec emax m e false.

Definition is_nan (x : float) : bool :=
  match x with S754_nan => true | _ => false end.

Inductive exn : Type :=
| ValueError
| TypeError
| AttributeError
| ConditionError.

(** The values an attribute of a state, or a field of [PidParams], can
    hold here: [None], a float, a string. *)
Inductive scalar : Type :=
| PyNone
| PyFloat (x : float)
| PyStr (s : string).

(** Truth value of [if v:]. *)
Definition truthy (v : scalar) : bool :=
  match v with
  | PyNone => false
  | PyFloat x => negb (feq x zero)
  | PyStr s => negb (String.eqb s "")
  end.

(** Unary minus: [-v]. *)
Definition neg (v : scalar) : exn + scalar :=
  match v with
  | PyFloat x => inr (PyFloat (fneg x))
  | PyNone | PyStr _ => inl TypeError
  end.

(** [v < 0]. *)
Definition lt_zero (v : scalar) : exn + bool :=
  match v with
  | PyFloat x => inr (flt x zero)
  | PyNone | PyStr _ => inl TypeError
  end.

(** [s.split(',')]. *)
Fixpoint split_comma_aux (acc : string) (s : string) : list string :=
  match s with
  | EmptyString => [acc]
  | String c rest =>
      if Ascii.eqb c ","%char
      then acc :: split_comma_aux "" rest
      else split_comma_aux (acc ++ String c "") rest
  end.

Definition split_comma (s : string) : list string := split_comma_aux "" s.

End Py.

Export Py (float, scalar, PyNone, PyFloat, PyStr, exn).

#[global] Instance float_eq_dec : EqDecision float.
Proof. unfold float. solve_decision. Defined.

#[global] Instance scalar_eq_dec : EqDecision scalar.
Proof. solve_decision. Defined.

#[global] Instance exn_eq_dec : EqDecision exn.
Proof. solve_decision. Defined.

(** ** Gain parameters *)

(** [class PidParams]: three fields assigned as given, no conversion. *)
Record PidParams : Type := mkPidParams {
  kp : scalar;
  ki : scalar;
  kd : scalar
}.

#[global] Instance PidParams_eq_dec : EqDecision PidParams.
Proof. solve_decision. Defined.

(** [PidParams.invert]: three assignments in order; an operand that does
    not support unary minus raises at its own assignment, the earlier
    ones having taken place.  The first component is the object after the
    call. *)
Definition invert (p : PidParams) : PidParams * (exn + unit) :=
  match Py.neg (kp p) with
  | inl e => (p, inl e)
  | inr kp' =>
      let p1 := mkPidParams kp' (ki p) (kd p) in
      match Py.neg (ki p1) with
      | inl e => (p1, inl e)
      | inr ki' =>
          let p2 := mkPidParams (kp p1) ki' (kd p1) in
          match Py.neg (kd p2) with
          | inl e => (p2, inl e)
          | inr kd' => (mkPidParams (kp p2) (ki p2) kd', inr tt)
          end
      end
  end.

(** The object after [invert()]. *)
Definition negated (p : PidParams) : PidParams := fst (invert p).

(** Gains given as floats, the data model's [{kp, ki, kd: float}]. *)
Definition gains (a b c : float) : PidParams :=
  mkPidParams (PyFloat a) (PyFloat b) (PyFloat c).

(** ** The host: Home Assistant *)

Module HA.

(** Constants of [homeassistant.const] and
    [homeassistant.components.climate]. *)
Definition HVAC_MODE_OFF : string := "off".
Definition HVAC_MODE_HEAT : string := "heat".
Definition HVAC_MODE_COOL : string := "cool".
Definition HVAC_MODE_HEAT_COOL : string := "heat_cool".
Definition STATE_ON : string := "on".
Definition SERVICE_TURN_ON : string := "turn_on".
Definition SERVICE_TURN_OFF : string := "turn_off".
Definition HA_DOMAIN : string := "homeassistant".

(** [homeassistant.core.State]: the state string of an entity and its
    attributes. *)
Record State : Type := mkState {
  state : string;
  attributes : gmap string scalar
}.

(** [datetime] and [timedelta], in seconds. *)
Definition datetime : Type := Z.
Definition timedelta : Type := Z.

(** What a method can observe of the host during one call: the
    thermostat it is attached to, the state machine [hass.states], and
    the helper [condition.state] for that state machine, which answers
    whether an entity has been in a state for a period, or raises
    [ConditionError]. *)
Record Env : Type := mkEnv {
  thermostat_entity_id : string;
  hvac_mode : string;
  current_temperature : option float;
  target_temperature : option float;
  states : gmap string State;
  condition_state : string -> string -> option timedelta -> exn + bool
}.

(** [hass.states.get(entity_id)]. *)
Definition states_get (env : Env) (entity_id : string) : option State :=
  states env !! entity_id.

(** [hass.states.is_state(entity_id, s)]. *)
Definition is_state (env : Env) (entity_id s : string) : bool :=
  match states_get env entity_id with
  | Some st => String.eqb (state st) s
  | None => false
  end.

Inductive level : Type := DEBUG | INFO | WARNING | ERROR.

(** What a method does to the outside: a service call
    [hass.services.async_call(domain, service, {entity_id: ...})], an
    output handed to the subclass's [_apply_output], a log record. *)
Inductive event : Type :=
| ServiceCall (domain service entity_id : string)
| ApplyOutput (output : float)
| Log (lvl : level) (msg : string).

Definition is_command (e : event) : bool :=
  match e with
  | ServiceCall _ _ _ | ApplyOutput _ => true
  | Log _ _ => false
  end.

(** The actuation commands of a trace, in order. *)
Definition commands (t : list event) : list event := List.filter is_command t.

End HA.

Export HA.

Definition ATTR_PID_PARAMS : string := "pid_params".

#[global] Instance State_eq_dec : EqDecision State.
Proof.
  intros [s1 a1] [s2 a2].
  destruct (decide (s1 = s2)); [|right; congruence].
  destruct (decide (a1 = a2)); [left|right]; congruence.
Defined.

#[global] Instance level_eq_dec : EqDecision level.
Proof. solve_decision. Defined.

#[global] Instance event_eq_dec : EqDecision event.
Proof. solve_decision. Defined.

(** A Python value that meets [==] / [!=] in the PID controller: a
    scalar, or a [State] object. *)
Inductive pyval : Type :=
| PyScalar (v : scalar)
| PyState (st : State).

(** [a == b].  Values of different types are unequal; floats compare as
    IEEE numbers; [State.__eq__] compares the fields. *)
Definition py_eq (a b : pyval) : bool :=
  match a, b with
  | PyScalar PyNone, PyScalar PyNone => true
  | PyScalar (PyFloat x), PyScalar (PyFloat y) => Py.feq x y
  | PyScalar (PyStr s), PyScalar (PyStr t) => String.eqb s t
  | PyState s, PyState t => bool_decide (s = t)
  | _, _ => false
  end.

Definition py_ne (a b : pyval) : bool := negb (py_eq a b).

(** The value of [hass.states.get(...)]: [None] or the [State]. *)
Definition of_state (o : option State) : pyval :=
  match o with
  | Some st => PyState st
  | None => PyScalar PyNone
  end.

(** A temperature read from the thermostat: a float or [None]. *)
Definition of_temp (o : option float) : pyval :=
  match o with
  | Some x => PyScalar (PyFloat x)
  | None => PyScalar PyNone
  end.

(** [t - tol] and [t + tol] for a temperature and a float tolerance. *)
Definition temp_sub (t : option float) (tol : float) : exn + float :=
  match t with
  | Some x => inr (Py.fsub x tol)
  | None => inl Py.TypeError
  end.

Definition temp_add (t : option float) (tol : float) : exn + float :=
  match t with
  | Some x => inr (Py.fadd x tol)
  | None => inl Py.TypeError
  end.

(** [t <= y] and [t >= y]. *)
Definition temp_le (t : option float) (y : float) : exn + bool :=
  match t with
  | Some x => inr (Py.fle x y)
  | None => inl Py.TypeError
  end.

Definition temp_ge (t : option float) (y : float) : exn + bool :=
  match t with
  | Some x => inr (Py.fge x y)
  | None => inl Py.TypeError
  end.

(** [x in l] for strings. *)
Definition str_in (x : string) (l : list string) : bool :=
  existsb (String.eqb x) l.

(** ** Methods as effectful functions *)

Record outcome (S A : Type) : Type := mkOutcome {
  trace : list event;
  self_after : S;
  result : exn + A
}.

Arguments mkOutcome {S A} _ _ _.
Arguments trace {S A} _.
Arguments self_after {S A} _.
Arguments result {S A} _.

Definition Eff (S A : Type) : Type := Env -> S -> outcome S A.

Definition ret {S A} (a : A) : Eff S A :=
  fun _ s => mkOutcome [] s (inr a).

Definition raise {S A} (e : exn) : Eff S A :=
  fun _ s => mkOutcome [] s (inl e).

Definition bind {S A B} (m : Eff S A) (k : A -> Eff S B) : Eff S B :=
  fun env s =>
    let o := m env s in
    match result o with
    | inl e => mkOutcome (trace o) (self_after o) (inl e)
    | inr a =>
        let o' := k a env (self_after o) in
        mkOutcome (trace o ++ trace o') (self_after o') (result o')
    end.

Notation "'do' x <- m ; k" := (bind m (fun x => k))
  (at level 10, x name, m at level 100, k at level 200,
   format "'[v' 'do'  x  <-  m ; '/' k ']'").
Notation "'run' m ; k" := (bind m (fun _ => k))
  (at level 10, m at level 100, k at level 200,
   format "'[v' 'run'  m ; '/' k ']'").

Definition ask {S} : Eff S Env := fun env s => mkOutcome [] s (inr env).
Definition get {S} : Eff S S := fun _ s => mkOutcome [] s (inr s).
Definition put {S} (s : S) : Eff S unit := fun _ _ => mkOutcome [] s (inr tt).
Definition emit {S} (e : event) : Eff S unit :=
  fun _ s => mkOutcome [e] s (inr tt).
Definition log {S} (lvl : level) (msg : string) : Eff S unit :=
  emit (Log lvl msg).

(** The value of an expression that may raise. *)
Definition eval {S A} (r : exn + A) : Eff S A :=
  match r with
  | inl e => raise e
  | inr a => ret a
  end.

(** ** [AbstractController] *)

(** The attributes of [AbstractController].  The thermostat and [hass]
    are the [Env] of a call. *)
Record AbstractController : Type := mkAbstractController {
  name : string;
  _mode : string;
  _target_entity_id : string;
  _inverted : bool;
  running : bool
}.

(** [AbstractController.__init__]: the attributes are assigned, then a
    mode other than cool or heat raises [ValueError], so that the caller
    gets no instance. *)
Definition AbstractController_init
    (name mode target_entity_id : string) (inverted : bool)
  : exn + AbstractController :=
  let self := mkAbstractController name mode target_entity_id inverted false in
  if negb (str_in mode [HVAC_MODE_COOL; HVAC_MODE_HEAT])
  then inl Py.ValueError
  else inr self.

Definition with_running (b : bool) (c : AbstractController) : AbstractController :=
  mkAbstractController (name c) (_mode c) (_target_entity_id c) (_inverted c) b.

(** The abstract methods a controller class provides, and its
    [AbstractController] part. *)
Class Controller (C : Type) : Type := {
  base : C -> AbstractController;
  set_base : AbstractController -> C -> C;
  _async_start : option float -> option float -> Eff C bool;
  _async_stop : Eff C unit;
  _async_control :
    option float -> option float -> option datetime -> bool -> Eff C unit
}.

Section Lifecycle.
Context {C : Type} `{Controller C}.

Definition set_running (b : bool) : Eff C unit :=
  do self <- get;
  put (set_base (with_running b (base self)) self).

(** [AbstractController.async_start]. *)
Definition async_start : Eff C unit :=
  do env <- ask;
  let cur_temp := current_temperature env in
  let target_temp := target_temperature env in
  do started <- _async_start cur_temp target_temp;
  if started : bool then
    run log DEBUG "Started controller";
    set_running true
  else
    log ERROR "Error starting controller".

(** [AbstractController.async_stop]. *)
Definition async_stop : Eff C unit :=
  run log DEBUG "Stopping controller";
  run _async_stop;
  set_running false.

(** [AbstractController.async_control(time=None, force=False)]. *)
Definition async_control (time : option datetime) (force : bool) : Eff C unit :=
  do self <- get;
  if negb (running (base self)) then ret tt
  else
    do env <- ask;
    let cur_temp := current_temperature env in
    let target_temp := target_temperature env in
    _async_control cur_temp target_temp time force.

End Lifecycle.

(** ** [SwitchController]: hysteresis *)

Record SwitchController : Type := mkSwitchController {
  switch_base : AbstractController;
  _cold_tolerance : float;
  _hot_tolerance : float;
  _min_cycle_duration : option timedelta
}.

(** [SwitchController.__init__]. *)
Definition SwitchController_init
    (name mode target_entity_id : string)
    (cold_tolerance hot_tolerance : float) (inverted : bool)
    (min_cycle_duration : option timedelta)
  : exn + SwitchController :=
  match AbstractController_init name mode target_entity_id inverted with
  | inl e => inl e
  | inr b => inr (mkSwitchController b cold_tolerance hot_tolerance min_cycle_duration)
  end.

(** Truth value of [self._min_cycle_duration]: [None] and the zero
    [timedelta] are false. *)
Definition duration_truthy (d : option timedelta) : bool :=
  match d with
  | None => false
  | Some t => negb (t =? 0)
  end.

Module Switch.

Definition service_call (c : SwitchController) (service : string) : Eff SwitchController unit :=
  emit (ServiceCall HA_DOMAIN service (_target_entity_id (switch_base c))).

(** [_async_turn_on]: the turn-on service, or turn-off when inverted. *)
Definition _async_turn_on : Eff SwitchController unit :=
  do self <- get;
  let service :=
    if negb (_inverted (switch_base self)) then SERVICE_TURN_ON else SERVICE_TURN_OFF in
  service_call self service.

(** [_async_turn_off]. *)
Definition _async_turn_off : Eff SwitchController unit :=
  do self <- get;
  let service :=
    if negb (_inverted (switch_base self)) then SERVICE_TURN_OFF else SERVICE_TURN_ON in
  service_call self service.

(** [_is_on]. *)
Definition _is_on (env : Env) (self : SwitchController) : bool :=
  is_state env (_target_entity_id (switch_base self)) STATE_ON.

Definition _async_start (cur_temp target_temp : option float) : Eff SwitchController bool :=
  ret true.

Definition _async_stop : Eff SwitchController unit := _async_turn_off.

(** Lines 392-408: the minimum-cycle gate.  [true] when the tick must
    return at once. *)
Definition gate (time : option datetime) (force : bool) : Eff SwitchController bool :=
  do self <- get;
  do env <- ask;
  if negb force && bool_decide (time = None)
     && duration_truthy (_min_cycle_duration self)
  then
    let current_state := if _is_on env self then STATE_ON else HVAC_MODE_OFF in
    do long_enough <-
      match condition_state env (_target_entity_id (switch_base self))
              current_state (_min_cycle_duration self) with
      | inr b => ret b
      | inl Py.ConditionError => ret false
      | inl e => raise e
      end;
    ret (negb long_enough)
  else ret false.

(** Lines 410-423. *)
Definition need_turn_on (self : SwitchController) (env : Env)
    (too_cold too_hot : bool) : bool :=
  (too_hot
   && String.eqb (_mode (switch_base self)) HVAC_MODE_COOL
   && str_in (hvac_mode env) [HVAC_MODE_COOL; HVAC_MODE_HEAT_COOL])
  || (too_cold
      && String.eqb (_mode (switch_base self)) HVAC_MODE_HEAT
      && str_in (hvac_mode env) [HVAC_MODE_HEAT; HVAC_MODE_HEAT_COOL]).

Definition too_cold (self : SwitchController) (cur_temp target_temp : option float)
  : exn + bool :=
  match temp_sub target_temp (_cold_tolerance self) with
  | inl e => inl e
  | inr lo => temp_le cur_temp lo
  end.

Definition too_hot (self : SwitchController) (cur_temp target_temp : option float)
  : exn + bool :=
  match temp_add target_temp (_hot_tolerance self) with
  | inl e => inl e
  | inr hi => temp_ge cur_temp hi
  end.

(** Lines 436-461: what is done with the switch. *)
Definition actuate (need_on : bool) (time : option datetime) : Eff SwitchController unit :=
  do self <- get;
  do env <- ask;
  if _is_on env self then
    if negb need_on then
      run log INFO "Turning off";
      _async_turn_off
    else if negb (bool_decide (time = None)) then
      run log INFO "Keep-alive - Turning on";
      _async_turn_on
    else ret tt
  else
    if need_on then
      run log INFO "Turning on";
      _async_turn_on
    else if negb (bool_decide (time = None)) then
      run log INFO "Keep-alive - Turning off";
      _async_turn_off
    else ret tt.

(** Lines 410-461: the decision, once the gate has let the tick pass. *)
Definition decide_and_actuate (cur_temp target_temp : option float)
    (time : option datetime) : Eff SwitchController unit :=
  do self <- get;
  do env <- ask;
  do cold <- eval (too_cold self cur_temp target_temp);
  do hot <- eval (too_hot self cur_temp target_temp);
  let need_on := need_turn_on self env cold hot in
  run log DEBUG "too_hot, too_cold, need_turn_on, is on";
  actuate need_on time.

(** [SwitchController._async_control]. *)
Definition _async_control (cur_temp target_temp : option float)
    (time : option datetime) (force : bool) : Eff SwitchController unit :=
  do blocked <- gate time force;
  if blocked : bool then ret tt
  else decide_and_actuate cur_temp target_temp time.

(** [is_working]. *)
Definition is_working (env : Env) (self : SwitchController) : bool := _is_on env self.

End Switch.

#[global] Instance SwitchController_Controller : Controller SwitchController := {
  base := switch_base;
  set_base b c :=
    mkSwitchController b (_cold_tolerance c) (_hot_tolerance c) (_min_cycle_duration c);
  _async_start := Switch._async_start;
  _async_stop := Switch._async_stop;
  _async_control := Switch._async_control
}.

(** ** [AbstractPidController] *)

(** An attribute that [__init__] sets to a [typing.Optional[...]]
    object ([self._pid = Optional[PID]]): it holds that typing object
    ([Unset]) until it is assigned [None] or an instance.  The typing
    object is true in a condition, and reading or writing a field of it
    raises [AttributeError]. *)
Inductive slot (A : Type) : Type :=
| Unset
| IsNone
| Obj (a : A).

Arguments Unset {A}.
Arguments IsNone {A}.
Arguments Obj {A} _.

(** Truth value of [if self._attr:]. *)
Definition slot_truthy {A} (s : slot A) : bool :=
  match s with
  | Unset => true
  | IsNone => false
  | Obj _ => true
  end.

(** A constructor argument that is an instance or [None]. *)
Definition of_option {A} (o : option A) : slot A :=
  match o with
  | Some a => Obj a
  | None => IsNone
  end.

Definition limits : Type := option float * option float.

Section Pid.

(** The [simple_pid] library keeps its accumulators (integral term,
    last input, last output, last time) inside the [PID] object; they
    are an opaque [acc] here.  [pid_fresh] is their value in a new
    object, [pid_resume] their value when automatic mode is switched on
    with a last output, and [pid_call] is [float(pid(input))]: the new
    accumulators and the output, or an exception. *)
Variable acc : Type.
Variable pid_fresh : acc.

(** [simple_pid.PID]: the tunings, the setpoint and the output limits
    are plain attributes. *)
Record PID : Type := mkPID {
  Kp : scalar;
  Ki : scalar;
  Kd : scalar;
  setpoint : option float;
  output_limits : limits;
  auto_mode : bool;
  accumulators : acc
}.

Variable pid_resume : PID -> pyval -> acc.
Variable pid_call : PID -> option float -> acc * (exn + float).

(** [PID(Kp, Ki, Kd, setpoint=..., output_limits=...)]. *)
Definition PID_new (Kp Ki Kd : scalar) (setpoint : option float)
    (output_limits : limits) : PID :=
  mkPID Kp Ki Kd setpoint output_limits true pid_fresh.

(** [PID.set_auto_mode(enabled, last_output)]: the accumulators are
    reset only when automatic mode goes from off to on. *)
Definition set_auto_mode (p : PID) (enabled : bool) (last_output : pyval) : PID :=
  let a := if enabled && negb (auto_mode p)
           then pid_resume p last_output else accumulators p in
  mkPID (Kp p) (Ki p) (Kd p) (setpoint p) (output_limits p) enabled a.

Record AbstractPidController : Type := mkAbstractPidController {
  pid_base : AbstractController;
  _initial_pid_params : option PidParams;
  _current_pid_params : slot PidParams;
  _pid : slot PID
}.

(** [_get_output_limits], given by the concrete subclass; its
    [_apply_output] is the event [ApplyOutput]. *)
Variable _get_output_limits : AbstractPidController -> limits.

Definition with_current (p : slot PidParams) (c : AbstractPidController) :=
  mkAbstractPidController (pid_base c) (_initial_pid_params c) p (_pid c).

Definition with_pid (p : slot PID) (c : AbstractPidController) :=
  mkAbstractPidController (pid_base c) (_initial_pid_params c)
    (_current_pid_params c) p.

(** [AbstractPidController.__init__]. *)
Definition AbstractPidController_init
    (name mode target_entity_id : string)
    (pid_params : option PidParams) (inverted : bool)
  : exn + AbstractPidController :=
  match AbstractController_init name mode target_entity_id inverted with
  | inl e => inl e
  | inr b => inr (mkAbstractPidController b pid_params Unset Unset)
  end.

(** [kp, ki, kd = saved_pid_params.split(',')]: exactly three parts,
    kept as the strings they are. *)
Definition unpack3 (parts : list string) : exn + PidParams :=
  match parts with
  | [a; b; c] => inr (mkPidParams (PyStr a) (PyStr b) (PyStr c))
  | _ => inl Py.ValueError
  end.

(** [saved_pid_params.split(',')] on an attribute value. *)
Definition split_saved (v : scalar) : exn + list string :=
  match v with
  | PyStr s => inr (Py.split_comma s)
  | PyNone | PyFloat _ => inl Py.AttributeError
  end.

(** [async_added_to_hass(hass, old_state)].  The base method keeps
    [hass] and subscribes to the state changes of the actuator; the rest
    restores the parameters. *)
Definition async_added_to_hass (old_state : option State)
  : Eff AbstractPidController unit :=
  run match old_state with
      | Some st =>
          match attributes st !! ATTR_PID_PARAMS with
          | None | Some PyNone => ret tt
          | Some saved_pid_params =>
              if Py.truthy saved_pid_params then
                do parts <- eval (split_saved saved_pid_params);
                do p <- eval (unpack3 parts);
                do self <- get;
                run put (with_current (Obj p) self);
                log INFO "restored last PID params"
              else ret tt
          end
      | None => ret tt
      end;
  do self <- get;
  if negb (slot_truthy (_current_pid_params self)) then
    run put (with_current (of_option (_initial_pid_params self)) self);
    log INFO "No PID params found in state attributes, using default"
  else ret tt.

(** [pid_params.invert()] on the argument of [set_pid_params]. *)
Definition invert_arg (p : PidParams) : Eff AbstractPidController PidParams :=
  let '(p', r) := invert p in
  run eval r;
  ret p'.

(** [self._pid.Kp = ...; self._pid.Ki = ...; self._pid.Kd = ...]. *)
Definition retune (p : PidParams) : Eff AbstractPidController unit :=
  do self <- get;
  match _pid self with
  | IsNone => ret tt
  | Unset => raise Py.AttributeError
  | Obj pid =>
      put (with_pid (Obj (mkPID (kp p) (ki p) (kd p) (setpoint pid)
                            (output_limits pid) (auto_mode pid)
                            (accumulators pid))) self)
  end.

(** [set_pid_params(pid_params)].  The argument is mutated in place
    and is the object stored. *)
Definition set_pid_params (pid_params : option PidParams)
  : Eff AbstractPidController unit :=
  match pid_params with
  | None => raise Py.ValueError
  | Some p =>
      do self <- get;
      do p1 <-
        (if String.eqb (_mode (pid_base self)) HVAC_MODE_COOL then
           do neg <- eval (Py.lt_zero (kp p));
           if negb neg then
             do q <- invert_arg p;
             run log WARNING "Cooler mode but kp not negative. Inverting all PID params";
             ret q
           else ret p
         else ret p);
      do p2 <-
        (if _inverted (pid_base self) then
           do q <- invert_arg p1;
           run log INFO "Target behavior inverted requested in config. Inverting all PID params";
           ret q
         else ret p1);
      run put (with_current (Obj p2) self);
      run retune p2;
      log INFO "New PID params"
  end.

(** [AbstractPidController._async_start]. *)
Definition pid_async_start (cur_temp target_temp : option float)
  : Eff AbstractPidController bool :=
  do self <- get;
  do env <- ask;
  match _current_pid_params self with
  | IsNone =>
      run log ERROR "Start called but no PID params was set";
      ret false
  | Unset => raise Py.AttributeError
  | Obj pid_params =>
      let pid := PID_new (kp pid_params) (ki pid_params) (kp pid_params)
                   target_temp (_get_output_limits self) in
      let current_output := states_get env (_target_entity_id (pid_base self)) in
      let pid :=
        match current_output with
        | Some st => set_auto_mode pid true (PyState st)
        | None => pid
        end in
      run put (with_pid (Obj pid) self);
      run log INFO "Initialized";
      ret true
  end.

(** [AbstractPidController._async_stop]. *)
Definition pid_async_stop : Eff AbstractPidController unit :=
  do self <- get;
  put (with_pid IsNone self).

Definition with_setpoint (sp : option float) (p : PID) : PID :=
  mkPID (Kp p) (Ki p) (Kd p) sp (output_limits p) (auto_mode p) (accumulators p).

Definition with_accumulators (a : acc) (p : PID) : PID :=
  mkPID (Kp p) (Ki p) (Kd p) (setpoint p) (output_limits p) (auto_mode p) a.

(** [AbstractPidController._async_control]. *)
Definition pid_async_control (cur_temp target_temp : option float)
    (time : option datetime) (force : bool) : Eff AbstractPidController unit :=
  do self <- get;
  do env <- ask;
  match _pid self with
  | Unset | IsNone => raise Py.AttributeError
  | Obj pid =>
      do pid <-
        (if py_ne (of_temp (setpoint pid)) (of_temp target_temp) then
           run log INFO "Target setpoint was changed";
           run put (with_pid (Obj (with_setpoint target_temp pid)) self);
           ret (with_setpoint target_temp pid)
         else ret pid);
      let '(a, r) := pid_call pid cur_temp in
      run put (with_pid (Obj (with_accumulators a pid)) self);
      do output <- eval r;
      let current_output := states_get env (_target_entity_id (pid_base self)) in
      if py_ne (of_state current_output) (PyScalar (PyFloat output)) then
        run log DEBUG "adjusting";
        emit (ApplyOutput output)
      else ret tt
  end.

#[global] Instance AbstractPidController_Controller
  : Controller AbstractPidController := {
  base := pid_base;
  set_base b c :=
    mkAbstractPidController b (_initial_pid_params c) (_current_pid_params c) (_pid c);
  _async_start := pid_async_start;
  _async_stop := pid_async_stop;
  _async_control := pid_async_control
}.

(** The life-cycle methods a PID controller inherits. *)
Definition pid_start : Eff AbstractPidController unit := async_start.
Definition pid_stop : Eff AbstractPidController unit := async_stop.
Definition pid_control (time : option datetime) (force : bool)
  : Eff AbstractPidController unit := async_control time force.

(** The methods the host calls on a PID controller, and the object
    after a call, whether it returned or raised. *)
Inductive call : Type :=
| AddedToHass (old_state : option State)
| SetPidParams (pid_params : option PidParams)
| Start
| Stop
| Control (time : option datetime) (force : bool).

Definition perform (c : call) : Eff AbstractPidController unit :=
  match c with
  | AddedToHass old_state => async_added_to_hass old_state
  | SetPidParams p => set_pid_params p
  | Start => pid_start
  | Stop => pid_stop
  | Control time force => pid_control time force
  end.

Fixpoint after (calls : list (Env * call)) (self : AbstractPidController)
  : AbstractPidController :=
  match calls with
  | [] => self
  | (env, c) :: rest => after rest (self_after (perform c env self))
  end.

End Pid.

Arguments mkPID {acc} _ _ _ _ _ _ _.
Arguments Kp {acc} _.
Arguments Ki {acc} _.
Arguments Kd {acc} _.
Arguments setpoint {acc} _.
Arguments output_limits {acc} _.
Arguments auto_mode {acc} _.
Arguments accumulators {acc} _.
Arguments mkAbstractPidController {acc} _ _ _ _.
Arguments pid_base {acc} _.
Arguments _initial_pid_params {acc} _.
Arguments _current_pid_params {acc} _.
Arguments _pid {acc} _.
Arguments with_current {acc} _ _.
Arguments with_pid {acc} _ _.
Arguments with_setpoint {acc} _ _.
Arguments with_accumulators {acc} _ _.
Arguments PID_new {acc} _ _ _ _ _ _.
Arguments set_auto_mode {acc} _ _ _ _.
Arguments AbstractPidController_init {acc} _ _ _ _ _.
Arguments async_added_to_hass {acc} _ _ _.
Arguments set_pid_params {acc} _ _ _.
Arguments invert_arg {acc} _ _ _.
Arguments retune {acc} _ _ _.
Arguments pid_async_start {acc} _ _ _ _ _ _ _.
Arguments pid_async_stop {acc} _ _.
Arguments pid_async_control {acc} _ _ _ _ _ _ _.
Arguments pid_start {acc} _ _ _ _ _ _.
Arguments pid_stop {acc} _ _ _ _ _ _.
Arguments pid_control {acc} _ _ _ _ _ _ _ _.
Arguments perform {acc} _ _ _ _ _ _ _.
Arguments after {acc} _ _ _ _ _ _.

(** An invariant of the object that a method keeps, whether it returns
    or raises. *)
Definition preserves {S A} (I : S -> Prop) (m : Eff S A) : Prop :=
  forall env s, I s -> I (self_after (m env s)).

(** [self._current_pid_params] is true in a condition. *)
Definition has_params {acc} (self : AbstractPidController acc) : Prop :=
  slot_truthy (_current_pid_params self) = true.

(** ** Commands of the switch and sample data *)

(** The service call made by [_async_turn_on] and by [_async_turn_off]. *)
Definition turn_on_command (self : SwitchController) : event :=
  ServiceCall HA_DOMAIN
    (if negb (_inverted (switch_base self)) then SERVICE_TURN_ON else SERVICE_TURN_OFF)
    (_target_entity_id (switch_base self)).

Definition turn_off_command (self : SwitchController) : event :=
  ServiceCall HA_DOMAIN
    (if negb (_inverted (switch_base self)) then SERVICE_TURN_OFF else SERVICE_TURN_ON)
    (_target_entity_id (switch_base self)).

(** What [actuate] commands, by cases on the switch, [need_on] and the
    kind of tick. *)
Definition expected_commands (self : SwitchController) (is_on need_on keep_alive : bool)
  : list event :=
  match is_on, need_on with
  | true, false => [turn_off_command self]
  | true, true => if keep_alive then [turn_on_command self] else []
  | false, true => [turn_on_command self]
  | false, false => if keep_alive then [turn_off_command self] else []
  end.

(** One tick of a controller, as the thermostat calls it. *)
Definition tick {C} `{Controller C} (time : option datetime) (force : bool)
    (env : Env) (self : C) : outcome C unit :=
  async_control time force env self.

Module Sample.

Definition heater : string := "switch.heater".

Definition t20 : float := Py.dyadic 20 0.
Definition half : float := Py.dyadic 1 (-1).

Definition entity (s : string) : State := mkState s ∅.

(** A host whose [condition.state] always answers [r]. *)
Definition host (hvac : string) (cur target : option float)
    (actuator : option State) (r : exn + bool) : Env :=
  mkEnv "climate.room" hvac cur target
    (match actuator with
     | Some st => {[ heater := st ]}
     | None => ∅
     end)
    (fun _ _ _ => r).

(** A started heating switch with tolerances of 0.5. *)
Definition heating_switch (inverted : bool) (min_cycle : option timedelta)
  : SwitchController :=
  mkSwitchController
    (mkAbstractController "heater" HVAC_MODE_HEAT heater inverted true)
    half half min_cycle.

(** The actuator is on, the room is at the target: inside the band. *)
Definition in_band_on : Env :=
  host HVAC_MODE_HEAT (Some t20) (Some t20) (Some (entity "on")) (inr true).

(** The actuator went on two minutes ago and the room is now too warm;
    [condition.state(..., "on", 5 min)] answers [False]. *)
Definition t25 : float := Py.dyadic 25 0.
Definition five_minutes : timedelta := 300.

Definition on_for_two_minutes : Env :=
  host HVAC_MODE_HEAT (Some t25) (Some t20) (Some (entity "on")) (inr false).

(** The actuator is unknown to the state machine: [condition.state]
    raises. *)
Definition actuator_unknown : Env :=
  host HVAC_MODE_HEAT (Some t25) (Some t20) None (inl Py.ConditionError).

(** A cold room, heating wanted, the actuator on or off. *)
Definition t15 : float := Py.dyadic 15 0.

Definition cold_room (actuator : string) : Env :=
  host HVAC_MODE_HEAT (Some t15) (Some t20) (Some (entity actuator)) (inr true).

Definition warm_room (actuator : string) : Env :=
  host HVAC_MODE_HEAT (Some t25) (Some t20) (Some (entity actuator)) (inr true).

(** A PID library with no accumulators: the output is
    [Kp * (setpoint - input)]. *)
Definition valve : string := "climate.valve".

Definition p_call (pid : PID unit) (input : option float) : unit * (exn + float) :=
  (tt,
   match Kp pid, setpoint pid, input with
   | PyFloat k, Some sp, Some x =>
       inr (SFmul Py.prec Py.emax k (Py.fsub sp x))
   | _, _, _ => inl Py.TypeError
   end).

Definition valve_limits (c : AbstractPidController unit) : limits :=
  (Some Py.zero, Some (Py.dyadic 100 0)).

Definition start := pid_start tt (fun _ _ => tt) p_call valve_limits.
Definition stop := pid_stop tt (fun _ _ => tt) p_call valve_limits.
Definition control := pid_control tt (fun _ _ => tt) p_call valve_limits.

Definition two_and_a_half : float := Py.dyadic 5 (-1).
Definition one_tenth : float := SFdiv Py.prec Py.emax (Py.dyadic 1 0) (Py.dyadic 10 0).
Definition t21 : float := Py.dyadic 21 0.

(** Configured defaults. *)
Definition defaults : PidParams := gains (Py.dyadic 1 0) Py.zero Py.zero.

(** The object [AbstractPidController.__init__] leaves. *)
Definition new_pid (mode : string) (pid_params : option PidParams) (inverted : bool)
  : AbstractPidController unit :=
  mkAbstractPidController
    (mkAbstractController "pid" mode valve inverted false)
    pid_params Unset Unset.

(** A room at 20 with a target of 21, and what the valve reports. *)
Definition valve_room (reported : option State) : Env :=
  mkEnv "climate.room" HVAC_MODE_HEAT (Some t20) (Some t21)
    (match reported with
     | Some st => {[ valve := st ]}
     | None => ∅
     end)
    (fun _ _ _ => inr true).

(** The state persisted by a previous run. *)
Definition persisted : State :=
  mkState "heat" {[ ATTR_PID_PARAMS := PyStr "2.5,0.1,0.0" ]}.

(** A running PID controller with gains 2.5, 0, 0 and setpoint 21. *)
Definition running_pid : AbstractPidController unit :=
  mkAbstractPidController
    (mkAbstractController "pid" HVAC_MODE_HEAT valve false true)
    None
    (Obj (gains two_and_a_half Py.zero Py.zero))
    (Obj (PID_new tt (PyFloat two_and_a_half) (PyFloat Py.zero)
            (PyFloat two_and_a_half) (Some t21) (valve_limits (new_pid HVAC_MODE_HEAT None false)))).

End Sample.

(** ** Variations of a controller and the persisted attributes *)

(** The same switch with another tolerance. *)
Definition with_hot_tolerance (h : float) (c : SwitchController) : SwitchController :=
  mkSwitchController (switch_base c) (_cold_tolerance c) h (_min_cycle_duration c).

Definition with_cold_tolerance (l : float) (c : SwitchController) : SwitchController :=
  mkSwitchController (switch_base c) l (_hot_tolerance c) (_min_cycle_duration c).

(** The same switch with the [inverted] flag the other way round. *)
Definition flip_inverted (c : SwitchController) : SwitchController :=
  mkSwitchController
    (mkAbstractController (name (switch_base c)) (_mode (switch_base c))
       (_target_entity_id (switch_base c)) (negb (_inverted (switch_base c)))
       (running (switch_base c)))
    (_cold_tolerance c) (_hot_tolerance c) (_min_cycle_duration c).

(** A service call with turn-on and turn-off exchanged. *)
Definition swap_service (e : event) : event :=
  match e with
  | ServiceCall d s id =>
      ServiceCall d
        (if String.eqb s SERVICE_TURN_ON then SERVICE_TURN_OFF
         else if String.eqb s SERVICE_TURN_OFF then SERVICE_TURN_ON
         else s)
        id
  | _ => e
  end.

(** No [","] in a string. *)
Fixpoint no_comma (s : string) : bool :=
  match s with
  | EmptyString => true
  | String c rest => negb (Ascii.eqb c ","%char) && no_comma rest
  end.

Section Attributes.

Context {acc : Type}.

(** [str(x)] for a float, left to the interpreter. *)
Variable float_str : float -> string.

(** [f"{v}"]. *)
Definition format_scalar (v : scalar) : string :=
  match v with
  | PyNone => "None"
  | PyFloat x => float_str x
  | PyStr s => s
  end.

(** [f"{p.kp},{p.ki},{p.kd}"]. *)
Definition format_params (p : PidParams) : string :=
  String.append (format_scalar (kp p))
    (String.append ","
       (String.append (format_scalar (ki p))
          (String.append "," (format_scalar (kd p))))).

(** [AbstractPidController.extra_state_attributes]: the condition
    [if p] is true for the typing object, whose field [kp] cannot be
    read. *)
Definition extra_state_attributes (self : AbstractPidController acc)
  : exn + gmap string scalar :=
  match _current_pid_params self with
  | Unset => inl Py.AttributeError
  | IsNone => inr {[ ATTR_PID_PARAMS := PyNone ]}
  | Obj p => inr {[ ATTR_PID_PARAMS := PyStr (format_params p) ]}
  end.

End Attributes.

Arguments extra_state_attributes {acc} _ _.

(** A running controller holds a [PID]. *)
Definition pid_present {acc} (self : AbstractPidController acc) : Prop :=
  running (pid_base self) = true -> exists pid, _pid self = Obj pid.

(** The state a restart finds: the attributes written by the previous
    run. *)
Definition saved_state (attrs : gmap string scalar) : State := mkState "heat" attrs.

(** * Properties *)

(** ** The effect monad *)

Lemma outcome_eta {S A} (o : outcome S A) :
  mkOutcome (trace o) (self_after o) (result o) = o.
Proof. destruct o; reflexivity. Qed.

Lemma bind_ret_l {S A B} (a : A) (k : A -> Eff S B) env s :
  bind (ret a) k env s = k a env s.
Proof. unfold bind, ret; cbn. apply outcome_eta. Qed.

Lemma bind_get {S B} (k : S -> Eff S B) env s :
  bind get k env s = k s env s.
Proof. unfold bind, get; cbn. apply outcome_eta. Qed.

Lemma bind_ask {S B} (k : Env -> Eff S B) env s :
  bind ask k env s = k env env s.
Proof. unfold bind, ask; cbn. apply outcome_eta. Qed.

Lemma bind_eval_inr {S A B} (a : A) (k : A -> Eff S B) env s :
  bind (eval (inr a)) k env s = k a env s.
Proof. apply bind_ret_l. Qed.

Lemma bind_log {S B} lvl msg (k : unit -> Eff S B) env (s : S) :
  commands (trace (bind (log lvl msg) k env s)) = commands (trace (k tt env s))
  /\ self_after (bind (log lvl msg) k env s) = self_after (k tt env s)
  /\ result (bind (log lvl msg) k env s) = result (k tt env s).
Proof. unfold bind, log, emit; cbn. auto. Qed.

Lemma bind_inr {S A B} (m : Eff S A) (k : A -> Eff S B) env s t s' a :
  m env s = mkOutcome t s' (inr a) ->
  bind m k env s
  = mkOutcome (t ++ trace (k a env s')) (self_after (k a env s')) (result (k a env s')).
Proof. intros Hm. unfold bind. rewrite Hm. reflexivity. Qed.

(** Rules for [preserves], one per operation of the monad. *)
Section Preservation.

Context {S : Type} (I : S -> Prop).

Lemma preserves_ret {A} (a : A) : preserves I (ret a).
Proof. intros env s Hs. exact Hs. Qed.

Lemma preserves_raise {A} (e : exn) : preserves I (raise (A := A) e).
Proof. intros env s Hs. exact Hs. Qed.

Lemma preserves_eval {A} (r : exn + A) : preserves I (eval r).
Proof. destruct r; [apply preserves_raise | apply preserves_ret]. Qed.

Lemma preserves_emit (e : event) : preserves I (emit e).
Proof. intros env s Hs. exact Hs. Qed.

Lemma preserves_log lvl msg : preserves I (log lvl msg).
Proof. apply preserves_emit. Qed.

Lemma preserves_put (s' : S) : I s' -> preserves I (put s').
Proof. intros Hs' env s _. exact Hs'. Qed.

Lemma preserves_bind {A B} (m : Eff S A) (k : A -> Eff S B) :
  preserves I m -> (forall a, preserves I (k a)) -> preserves I (bind m k).
Proof.
  intros Hm Hk env s Hs. unfold bind.
  specialize (Hm env s Hs).
  destruct (result (m env s)) as [e|a]; cbn; [exact Hm|].
  apply Hk, Hm.
Qed.

Lemma preserves_bind_get {B} (k : S -> Eff S B) :
  (forall s0, I s0 -> preserves I (k s0)) -> preserves I (bind get k).
Proof. intros Hk env s Hs. rewrite bind_get. apply Hk; assumption. Qed.

Lemma preserves_bind_ask {B} (k : Env -> Eff S B) :
  (forall env, preserves I (k env)) -> preserves I (bind ask k).
Proof. intros Hk env s Hs. rewrite bind_ask. apply Hk; assumption. Qed.

End Preservation.

Ltac preserve_step :=
  lazymatch goal with
  | |- preserves _ (ret _) => apply preserves_ret
  | |- preserves _ (raise _) => apply preserves_raise
  | |- preserves _ (eval _) => apply preserves_eval
  | |- preserves _ (log _ _) => apply preserves_log
  | |- preserves _ (emit _) => apply preserves_emit
  | |- preserves _ (bind get _) => apply preserves_bind_get; intros ? ?
  | |- preserves _ (bind ask _) => apply preserves_bind_ask; intros ?
  | |- preserves _ (bind _ _) => apply preserves_bind; [ | intros ? ]
  | |- preserves _ (match ?x with _ => _ end) => destruct x eqn:?
  end.

(** ** Gain parameters *)

Lemma fneg_involutive (x : float) : Py.fneg (Py.fneg x) = x.
Proof. destruct x as [s|s| |s m e]; simpl; try rewrite negb_involutive; reflexivity. Qed.

Lemma invert_gains (a b c : float) :
  invert (gains a b c) = (gains (Py.fneg a) (Py.fneg b) (Py.fneg c), inr tt).
Proof. reflexivity. Qed.

(** C9: inverting twice gives back the three original fields, for all
    float gains [kp], [ki], [kd]; both calls return normally. *)
Theorem invert_involutive (a b c : float) :
  snd (invert (gains a b c)) = inr tt /\
  invert (fst (invert (gains a b c))) = (gains a b c, inr tt).
Proof.
  rewrite invert_gains; cbn [fst snd]. split; [reflexivity|].
  rewrite invert_gains, !fneg_involutive. reflexivity.
Qed.

(** ** Construction *)

Lemma str_in_modes (mode : string) :
  str_in mode [HVAC_MODE_COOL; HVAC_MODE_HEAT] = true
  <-> mode = HVAC_MODE_HEAT \/ mode = HVAC_MODE_COOL.
Proof.
  unfold str_in; cbn. rewrite orb_false_r, orb_true_iff, !String.eqb_eq. tauto.
Qed.

Lemma AbstractController_init_spec name mode target inverted :
  AbstractController_init name mode target inverted =
  if str_in mode [HVAC_MODE_COOL; HVAC_MODE_HEAT]
  then inr (mkAbstractController name mode target inverted false)
  else inl Py.ValueError.
Proof. unfold AbstractController_init. destruct (str_in _ _); reflexivity. Qed.

(** C10: constructing a hysteresis or a PID controller succeeds exactly
    when the mode is heat or cool, and raises [ValueError], giving no
    instance, exactly when it is neither. *)
Theorem init_requires_heat_or_cool
    {acc : Type} (name mode target : string) (cold hot : float)
    (inverted : bool) (min_cycle : option timedelta) (pid_params : option PidParams) :
  let supported := mode = HVAC_MODE_HEAT \/ mode = HVAC_MODE_COOL in
  ((exists c, SwitchController_init name mode target cold hot inverted min_cycle = inr c)
     <-> supported)
  /\ (SwitchController_init name mode target cold hot inverted min_cycle
        = inl Py.ValueError <-> ~ supported)
  /\ ((exists c, AbstractPidController_init (acc := acc) name mode target pid_params inverted = inr c)
        <-> supported)
  /\ (AbstractPidController_init (acc := acc) name mode target pid_params inverted
        = inl Py.ValueError <-> ~ supported).
Proof.
  intros supported. subst supported.
  unfold SwitchController_init, AbstractPidController_init.
  rewrite AbstractController_init_spec, <- str_in_modes.
  destruct (str_in mode _); repeat split;
    try (intros [c Hc]; discriminate); try discriminate; try (intros; eauto; fail);
    try congruence.
Qed.

(** ** The hysteresis controller *)

Lemma turn_on_outcome env (self : SwitchController) :
  Switch._async_turn_on env self = mkOutcome [turn_on_command self] self (inr tt).
Proof.
  unfold Switch._async_turn_on. rewrite bind_get. reflexivity.
Qed.

Lemma turn_off_outcome env (self : SwitchController) :
  Switch._async_turn_off env self = mkOutcome [turn_off_command self] self (inr tt).
Proof.
  unfold Switch._async_turn_off. rewrite bind_get. reflexivity.
Qed.

Lemma actuate_outcome need_on time env (self : SwitchController) :
  let o := Switch.actuate need_on time env self in
  commands (trace o)
    = expected_commands self (Switch._is_on env self) need_on
        (negb (bool_decide (time = None)))
  /\ self_after o = self /\ result o = inr tt.
Proof.
  unfold Switch.actuate. rewrite bind_get, bind_ask.
  destruct (Switch._is_on env self), need_on, (bool_decide (time = None));
    cbn [negb expected_commands]; unfold bind, log, emit, ret;
    rewrite ?turn_on_outcome, ?turn_off_outcome; cbn; auto.
Qed.

Lemma decide_and_actuate_outcome cur_temp target_temp time env
    (self : SwitchController) (cold hot : bool) :
  Switch.too_cold self cur_temp target_temp = inr cold ->
  Switch.too_hot self cur_temp target_temp = inr hot ->
  let o := Switch.decide_and_actuate cur_temp target_temp time env self in
  commands (trace o)
    = expected_commands self (Switch._is_on env self)
        (Switch.need_turn_on self env cold hot)
        (negb (bool_decide (time = None)))
  /\ self_after o = self /\ result o = inr tt.
Proof.
  intros Hc Hh. unfold Switch.decide_and_actuate.
  rewrite bind_get, bind_ask, Hc, bind_eval_inr, Hh, bind_eval_inr.
  cbv zeta.
  destruct (bind_log (S := SwitchController) DEBUG
              "too_hot, too_cold, need_turn_on, is on"
              (fun _ => Switch.actuate (Switch.need_turn_on self env cold hot) time)
              env self) as (-> & -> & ->).
  apply actuate_outcome.
Qed.

Lemma gate_silent time force env (self : SwitchController) :
  trace (Switch.gate time force env self) = []
  /\ self_after (Switch.gate time force env self) = self.
Proof.
  unfold Switch.gate. rewrite bind_get, bind_ask.
  destruct (negb force && bool_decide (time = None)
            && duration_truthy (_min_cycle_duration self)); [|split; reflexivity].
  destruct (condition_state env _ _ _) as [[]|b]; split; reflexivity.
Qed.

(** The three ways out of [_async_control], by the answer of the gate. *)
Lemma switch_control_outcome cur_temp target_temp time force env
    (self : SwitchController) :
  Switch._async_control cur_temp target_temp time force env self =
  match result (Switch.gate time force env self) with
  | inl e => mkOutcome [] self (inl e)
  | inr true => mkOutcome [] self (inr tt)
  | inr false => Switch.decide_and_actuate cur_temp target_temp time env self
  end.
Proof.
  unfold Switch._async_control, bind.
  destruct (gate_silent time force env self) as [-> ->].
  destruct (result (Switch.gate time force env self)) as [e|[|]]; cbn;
    auto using outcome_eta.
Qed.

Lemma gate_passes time force env (self : SwitchController) :
  negb force && bool_decide (time = None)
    && duration_truthy (_min_cycle_duration self) = false ->
  result (Switch.gate time force env self) = inr false.
Proof.
  intros Hg. unfold Switch.gate. rewrite bind_get, bind_ask, Hg. reflexivity.
Qed.

Lemma switch_tick_running time force env (self : SwitchController) :
  running (switch_base self) = true ->
  tick time force env self =
  Switch._async_control (current_temperature env) (target_temperature env)
    time force env self.
Proof.
  intros Hr. unfold tick, async_control. rewrite bind_get.
  cbn [base SwitchController_Controller]. rewrite Hr. cbn [negb].
  rewrite bind_ask. reflexivity.
Qed.

(** C1, as amended: inside the band ([too_cold] and [too_hot] both
    false), a normal tick of a running hysteresis controller that the
    minimum-cycle gate lets pass issues no command when the actuator is
    off, and issues the turn-off command, and nothing else, when the
    actuator is on. *)
Theorem dead_band_commands env (self : SwitchController) :
  running (switch_base self) = true ->
  result (Switch.gate None false env self) = inr false ->
  Switch.too_cold self (current_temperature env) (target_temperature env) = inr false ->
  Switch.too_hot self (current_temperature env) (target_temperature env) = inr false ->
  commands (trace (tick None false env self))
    = (if Switch._is_on env self then [turn_off_command self] else [])
  /\ result (tick None false env self) = inr tt.
Proof.
  intros Hr Hg Hc Hh.
  rewrite switch_tick_running, switch_control_outcome, Hg by assumption.
  destruct (decide_and_actuate_outcome _ _ None env self false false Hc Hh)
    as (-> & _ & ->).
  split; [|reflexivity].
  unfold Switch.need_turn_on; cbn.
  destruct (Switch._is_on env self); reflexivity.
Qed.

Lemma dead_band_commands_witness :
  (running (switch_base (Sample.heating_switch false None)) = true
   /\ Switch._is_on Sample.in_band_on (Sample.heating_switch false None) = true)
  /\ commands (trace (tick None false Sample.in_band_on
                        (Sample.heating_switch false None)))
       = [ServiceCall "homeassistant" "turn_off" "switch.heater"].
Proof.
  split; [split; reflexivity|].
  exact (proj1 (dead_band_commands Sample.in_band_on
                  (Sample.heating_switch false None)
                  eq_refl eq_refl eq_refl eq_refl)).
Defined.

(** C1, as stated, fails: the room is exactly at the target, both
    tolerances are 0.5, so neither [too_cold] nor [too_hot] holds; no
    minimum cycle is configured; the actuator is on; the normal tick
    calls the turn-off service. *)
Lemma dead_band_not_silent :
  running (switch_base (Sample.heating_switch false None)) = true
  /\ Switch.too_cold (Sample.heating_switch false None)
       (current_temperature Sample.in_band_on)
       (target_temperature Sample.in_band_on) = inr false
  /\ Switch.too_hot (Sample.heating_switch false None)
       (current_temperature Sample.in_band_on)
       (target_temperature Sample.in_band_on) = inr false
  /\ result (Switch.gate None false Sample.in_band_on
               (Sample.heating_switch false None)) = inr false
  /\ commands (trace (tick None false Sample.in_band_on
                        (Sample.heating_switch false None)))
       = [ServiceCall "homeassistant" "turn_off" "switch.heater"]
  /\ commands (trace (tick None false Sample.in_band_on
                        (Sample.heating_switch false None))) <> [].
Proof. repeat split; try reflexivity. discriminate. Qed.




(** C6: on a keep-alive tick of a running hysteresis controller, the
    turn-on command is issued again when the actuator is on and
    [need_turn_on] holds, and the turn-off command is issued again when
    the actuator is off and [need_turn_on] does not hold. *)
Theorem keep_alive_reasserts env (self : SwitchController)
    (t : datetime) (force cold hot : bool) :
  running (switch_base self) = true ->
  Switch.too_cold self (current_temperature env) (target_temperature env) = inr cold ->
  Switch.too_hot self (current_temperature env) (target_temperature env) = inr hot ->
  (Switch._is_on env self = true ->
   Switch.need_turn_on self env cold hot = true ->
   commands (trace (tick (Some t) force env self)) = [turn_on_command self])
  /\ (Switch._is_on env self = false ->
      Switch.need_turn_on self env cold hot = false ->
      commands (trace (tick (Some t) force env self)) = [turn_off_command self]).
Proof.
  intros Hr Hc Hh.
  rewrite switch_tick_running, switch_control_outcome by assumption.
  rewrite gate_passes
    by (rewrite bool_decide_eq_false_2 by discriminate;
        rewrite andb_false_r; reflexivity).
  destruct (decide_and_actuate_outcome _ _ (Some t) env self cold hot Hc Hh)
    as (-> & _ & _).
  split; intros -> ->; reflexivity.
Qed.

Lemma keep_alive_reasserts_witness :
  commands (trace (tick (Some 0) false (Sample.cold_room "on")
                     (Sample.heating_switch false None)))
    = [ServiceCall "homeassistant" "turn_on" "switch.heater"]
  /\ commands (trace (tick (Some 0) false (Sample.warm_room "off")
                        (Sample.heating_switch false None)))
    = [ServiceCall "homeassistant" "turn_off" "switch.heater"].
Proof.
  split.
  - exact (proj1 (keep_alive_reasserts (Sample.cold_room "on")
                    (Sample.heating_switch false None) 0 false true false
                    eq_refl eq_refl eq_refl) eq_refl eq_refl).
  - exact (proj2 (keep_alive_reasserts (Sample.warm_room "off")
                    (Sample.heating_switch false None) 0 false false true
                    eq_refl eq_refl eq_refl) eq_refl eq_refl).
Defined.

(** ** The PID controller *)

Section PidProperties.

Context {acc : Type}.
Variable pid_fresh : acc.
Variable pid_resume : PID acc -> pyval -> acc.
Variable pid_call : PID acc -> option float -> acc * (exn + float).
Variable _get_output_limits : AbstractPidController acc -> limits.

Local Abbreviation start := (pid_start pid_fresh pid_resume pid_call _get_output_limits).
Local Abbreviation stop := (pid_stop pid_fresh pid_resume pid_call _get_output_limits).
Local Abbreviation control := (pid_control pid_fresh pid_resume pid_call _get_output_limits).
Local Abbreviation do_call := (perform pid_fresh pid_resume pid_call _get_output_limits).
Local Abbreviation after_calls := (after pid_fresh pid_resume pid_call _get_output_limits).

(** What a start does when gain parameters are there. *)
Lemma start_with_params env (self : AbstractPidController acc) (p : PidParams) :
  _current_pid_params self = Obj p ->
  exists pid,
    self_after (start env self)
      = mkAbstractPidController (with_running true (pid_base self))
          (_initial_pid_params self) (Obj p) (Obj pid)
    /\ result (start env self) = inr tt
    /\ Kp pid = kp p /\ Ki pid = ki p /\ Kd pid = kp p
    /\ setpoint pid = target_temperature env
    /\ output_limits pid = _get_output_limits self.
Proof.
  intros Hp. unfold pid_start, async_start. rewrite bind_ask.
  cbn [_async_start AbstractPidController_Controller].
  unfold pid_async_start, bind, get, ask, put, log, emit, ret, set_running; cbn.
  rewrite Hp; cbn.
  destruct (states_get env _); cbn; rewrite ?Hp; eexists; repeat split.
Qed.

(** The guarded path of lines 280-282 and 141-149: with [None] as
    current parameters the start logs two errors, returns, and leaves
    everything as it was. *)
Lemma start_without_params env (self : AbstractPidController acc) :
  _current_pid_params self = IsNone ->
  start env self
  = mkOutcome [Log ERROR "Start called but no PID params was set";
               Log ERROR "Error starting controller"] self (inr tt).
Proof.
  intros Hp. unfold pid_start, async_start. rewrite bind_ask.
  cbn [_async_start AbstractPidController_Controller].
  unfold pid_async_start, bind, get, ask, put, log, emit, ret; cbn.
  rewrite Hp; cbn. reflexivity.
Qed.

(** With the typing object still in place the start raises at
    [pid_params.kp]; nothing is logged and nothing changes. *)
Lemma start_unset env (self : AbstractPidController acc) :
  _current_pid_params self = Unset ->
  start env self = mkOutcome [] self (inl Py.AttributeError).
Proof.
  intros Hp. unfold pid_start, async_start. rewrite bind_ask.
  cbn [_async_start AbstractPidController_Controller].
  unfold pid_async_start, bind, get, ask, raise; cbn.
  rewrite Hp; cbn. reflexivity.
Qed.

(** A controller that is not running ignores [async_control]. *)
Lemma control_stopped time force env (self : AbstractPidController acc) :
  running (pid_base self) = false ->
  control time force env self = mkOutcome [] self (inr tt).
Proof.
  intros Hr. unfold pid_control, async_control. rewrite bind_get.
  cbn [base AbstractPidController_Controller]. rewrite Hr. reflexivity.
Qed.

(** C2, at the failing input: with current gains [kp = 2.5], [ki = 0.1],
    [kd = 0.0] the start succeeds and builds the [PID] with setpoint
    [target_temp] and the subclass's output limits, with [Kp = 2.5] and
    [Ki = 0.1], but with [Kd = 2.5], the value of [kp], not [kd = 0.0]. *)
Theorem start_seeds_derivative_gain_from_kp env (self : AbstractPidController acc) :
  let p := gains (Py.dyadic 5 (-1))
             (SFdiv Py.prec Py.emax (Py.dyadic 1 0) (Py.dyadic 10 0)) Py.zero in
  let self := with_current (Obj p) self in
  exists pid,
    result (start env self) = inr tt
    /\ running (pid_base (self_after (start env self))) = true
    /\ _pid (self_after (start env self)) = Obj pid
    /\ setpoint pid = target_temperature env
    /\ output_limits pid = _get_output_limits self
    /\ Kp pid = kp p /\ Ki pid = ki p
    /\ Kd pid = PyFloat (Py.dyadic 5 (-1))
    /\ Kd pid <> kd p.
Proof.
  intros p self'.
  destruct (start_with_params env self' p eq_refl)
    as (pid & -> & -> & HKp & HKi & HKd & Hsp & Hlim).
  exists pid. cbn [pid_base _pid running with_running].
  rewrite HKp, HKi, HKd, Hsp, Hlim.
  repeat split; discriminate.
Qed.

Lemma state_ne_float (o : option State) (x : float) :
  py_ne (of_state o) (PyScalar (PyFloat x)) = true.
Proof. destruct o; reflexivity. Qed.

(** Every tick of a running PID controller whose computation returns a
    number hands that number to [_apply_output]: a [State] object, or
    [None], never equals a float. *)
Lemma control_always_applies time force env (self : AbstractPidController acc)
    (pid : PID acc) (a : acc) (output : float) :
  running (pid_base self) = true ->
  _pid self = Obj pid ->
  pid_call (if py_ne (of_temp (setpoint pid)) (of_temp (target_temperature env))
            then with_setpoint (target_temperature env) pid else pid)
    (current_temperature env) = (a, inr output) ->
  commands (trace (control time force env self)) = [ApplyOutput output].
Proof.
  intros Hr Hpid Hcall. unfold pid_control, async_control. rewrite bind_get.
  cbn [base AbstractPidController_Controller]. rewrite Hr. cbn [negb].
  rewrite bind_ask. cbn [_async_control AbstractPidController_Controller].
  unfold pid_async_control. rewrite bind_get, bind_ask, Hpid.
  destruct (py_ne (of_temp (setpoint pid)) (of_temp (target_temperature env)));
    unfold bind, log, emit, put, ret, eval; cbn; rewrite Hcall; cbn;
    rewrite state_ne_float; reflexivity.
Qed.

Lemma negated_gains (a b c : float) :
  negated (gains a b c) = gains (Py.fneg a) (Py.fneg b) (Py.fneg c).
Proof. reflexivity. Qed.

Lemma flt_zero_fle (x : float) : Py.flt x Py.zero = true -> Py.fle x Py.zero = true.
Proof. destruct x as [[]|[]| |[] m e]; cbn; congruence. Qed.

Lemma not_flt_zero_fle_neg (x : float) :
  Py.is_nan x = false -> Py.flt x Py.zero = false ->
  Py.fle (Py.fneg x) Py.zero = true.
Proof. destruct x as [[]|[]| |[] m e]; cbn; congruence. Qed.

Lemma fle_neg_swap (x : float) :
  Py.fle x Py.zero = true -> Py.fle Py.zero (Py.fneg x) = true.
Proof. destruct x as [[]|[]| |[] m e]; cbn; congruence. Qed.

Lemma invert_arg_gains env (self : AbstractPidController acc) (a b c : float) :
  invert_arg (gains a b c) env self
  = mkOutcome [] self (inr (negated (gains a b c))).
Proof. reflexivity. Qed.

(** Retuning the running [PID] leaves the stored parameters alone; it
    raises only on the typing object. *)
Lemma retune_outcome env (self : AbstractPidController acc) (p : PidParams) :
  _current_pid_params (self_after (retune p env self)) = _current_pid_params self
  /\ (_pid self <> Unset -> result (retune p env self) = inr tt).
Proof.
  unfold retune. rewrite bind_get.
  destruct (_pid self); split; try reflexivity; congruence.
Qed.

(** The parameters [set_pid_params] stores for float gains, in any state
    of the controller. *)
Lemma set_pid_params_stores env (self : AbstractPidController acc) (a b c : float) :
  let p := gains a b c in
  let p1 := if String.eqb (_mode (pid_base self)) HVAC_MODE_COOL
               && negb (Py.flt a Py.zero)
            then negated p else p in
  let p2 := if _inverted (pid_base self) then negated p1 else p1 in
  _current_pid_params (self_after (set_pid_params (Some p) env self)) = Obj p2
  /\ (_pid self <> Unset -> result (set_pid_params (Some p) env self) = inr tt).
Proof.
  cbv zeta. unfold set_pid_params. rewrite bind_get.
  set (p1 := if String.eqb (_mode (pid_base self)) HVAC_MODE_COOL
               && negb (Py.flt a Py.zero)
             then negated (gains a b c) else gains a b c).
  set (p2 := if _inverted (pid_base self) then negated p1 else p1).
  assert (Hfloat1 : exists x y z, p1 = gains x y z).
  { subst p1. destruct (_ && _); rewrite ?negated_gains; eauto. }
  destruct Hfloat1 as (x & y & z & Hp1).
  erewrite bind_inr; cycle 1.
  { instantiate (1 := p1). instantiate (1 := self).
    instantiate (1 := if String.eqb (_mode (pid_base self)) HVAC_MODE_COOL
                         && negb (Py.flt a Py.zero)
                      then [Log WARNING
                              "Cooler mode but kp not negative. Inverting all PID params"]
                      else []).
    subst p1.
    destruct (String.eqb (_mode (pid_base self)) HVAC_MODE_COOL); [|reflexivity].
    change (Py.lt_zero (kp (gains a b c))) with (@inr exn bool (Py.flt a Py.zero)).
    rewrite bind_eval_inr. destruct (Py.flt a Py.zero); reflexivity. }
  cbn [trace self_after result].
  erewrite bind_inr; cycle 1.
  { instantiate (1 := p2). instantiate (1 := self).
    instantiate (1 := if _inverted (pid_base self)
                      then [Log INFO
                              "Target behavior inverted requested in config. Inverting all PID params"]
                      else []).
    subst p2. rewrite Hp1.
    destruct (_inverted (pid_base self)); reflexivity. }
  cbn [trace self_after result].
  erewrite bind_inr by reflexivity.
  cbn [trace self_after result].
  destruct (retune_outcome env (with_current (Obj p2) self) p2) as [Hcur Hres].
  unfold bind.
  destruct (retune p2 env (with_current (Obj p2) self)) as [t s' [e|[]]];
    cbn [trace self_after result] in *; split; assumption.
Qed.

(** C4, as amended: in cool mode, for all float gains, [set_pid_params]
    inverts the three gains exactly when [kp < 0] is false, then inverts
    them once more if [inverted] is configured, and stores the result;
    when [kp] is a number (not NaN), the [kp] stored is [<= 0] with
    [inverted] off and has the flipped sign, [>= 0], with [inverted]
    on. *)
Theorem cooling_sign_convention env (self : AbstractPidController acc) (a b c : float) :
  _mode (pid_base self) = HVAC_MODE_COOL ->
  let p := gains a b c in
  let p1 := if negb (Py.flt a Py.zero) then negated p else p in
  let p2 := if _inverted (pid_base self) then negated p1 else p1 in
  _current_pid_params (self_after (set_pid_params (Some p) env self)) = Obj p2
  /\ (Py.is_nan a = false ->
      exists k,
        kp p1 = PyFloat k /\ Py.fle k Py.zero = true
        /\ kp p2 = PyFloat (if _inverted (pid_base self) then Py.fneg k else k)
        /\ (if _inverted (pid_base self)
            then Py.fle Py.zero (Py.fneg k) else Py.fle k Py.zero) = true).
Proof.
  intros Hmode. cbv zeta.
  destruct (set_pid_params_stores env self a b c) as [Hstored _].
  rewrite Hmode in Hstored. cbn [String.eqb andb] in Hstored.
  change (HVAC_MODE_COOL =? HVAC_MODE_COOL)%string with true in Hstored.
  cbn [andb] in Hstored. split; [exact Hstored|]. intros Hnan.
  exists (if negb (Py.flt a Py.zero) then Py.fneg a else a).
  assert (Hle : Py.fle (if negb (Py.flt a Py.zero) then Py.fneg a else a) Py.zero = true).
  { destruct (Py.flt a Py.zero) eqn:Hneg; cbn [negb];
      auto using flt_zero_fle, not_flt_zero_fle_neg. }
  repeat split.
  - destruct (Py.flt a Py.zero); reflexivity.
  - exact Hle.
  - destruct (Py.flt a Py.zero), (_inverted (pid_base self)); reflexivity.
  - destruct (_inverted (pid_base self)); auto using fle_neg_swap.
Qed.

(** *** The current parameters are never false in a condition *)

Ltac preserve :=
  repeat preserve_step;
  try (apply preserves_put;
       first [ reflexivity
             | match goal with H : has_params ?s |- _ => exact H end ]).

Lemma added_to_hass_keeps_params old_state :
  preserves (has_params (acc := acc)) (async_added_to_hass old_state).
Proof.
  unfold async_added_to_hass. preserve.
  match goal with
  | H : has_params ?s, E : negb (slot_truthy (_current_pid_params ?s)) = true |- _ =>
      unfold has_params in H; rewrite H in E; discriminate
  end.
Qed.

Lemma set_pid_params_keeps_params pid_params :
  preserves (has_params (acc := acc)) (set_pid_params pid_params).
Proof. unfold set_pid_params, invert_arg, retune. preserve. Qed.

Lemma start_keeps_params : preserves has_params start.
Proof.
  unfold pid_start, async_start, set_running.
  cbn [_async_start base set_base AbstractPidController_Controller].
  unfold pid_async_start. preserve.
Qed.

Lemma stop_keeps_params : preserves has_params stop.
Proof.
  unfold pid_stop, async_stop, set_running.
  cbn [_async_stop base set_base AbstractPidController_Controller].
  unfold pid_async_stop. preserve.
Qed.

Lemma control_keeps_params time force : preserves has_params (control time force).
Proof.
  unfold pid_control, async_control.
  cbn [_async_control base set_base AbstractPidController_Controller].
  unfold pid_async_control. preserve.
Qed.

Lemma perform_keeps_params (c : call) : preserves has_params (do_call c).
Proof.
  destruct c; cbn [perform];
    auto using added_to_hass_keeps_params, set_pid_params_keeps_params,
      start_keeps_params, stop_keeps_params, control_keeps_params.
Qed.

(** From construction on, through any calls of the host, returning or
    raising, [self._current_pid_params] stays true in a condition: it is
    the typing object or a [PidParams], never [None]. *)
Lemma current_params_never_none name mode target pid_params inverted
    (self : AbstractPidController acc) (calls : list (Env * call)) :
  AbstractPidController_init name mode target pid_params inverted = inr self ->
  _current_pid_params (after_calls calls self) <> IsNone.
Proof.
  intros Hinit.
  assert (Hp : has_params self).
  { unfold AbstractPidController_init in Hinit.
    destruct (AbstractController_init _ _ _ _); [discriminate|].
    injection Hinit as <-. reflexivity. }
  clear Hinit. revert self Hp.
  induction calls as [|[env c] rest IH]; intros self Hp; cbn [after].
  - unfold has_params in Hp. intros E. rewrite E in Hp. discriminate.
  - apply IH, perform_keeps_params, Hp.
Qed.

(** So the error of line 281 is never logged: a start either builds the
    [PID] or raises. *)
Lemma start_never_reports name mode target pid_params inverted
    (self : AbstractPidController acc) (calls : list (Env * call)) env :
  AbstractPidController_init name mode target pid_params inverted = inr self ->
  let o := start env (after_calls calls self) in
  (result o = inl Py.AttributeError /\ trace o = []
   /\ self_after o = after_calls calls self)
  \/ (result o = inr tt /\ running (pid_base (self_after o)) = true).
Proof.
  intros Hinit. cbv zeta.
  pose proof (current_params_never_none _ _ _ _ _ _ calls Hinit) as Hne.
  destruct (_current_pid_params (after_calls calls self)) as [| |p] eqn:Hcur.
  - left. rewrite start_unset by assumption. auto.
  - congruence.
  - right. destruct (start_with_params env _ p Hcur) as (pid & -> & -> & _).
    auto.
Qed.

End PidProperties.

Lemma cooling_sign_convention_witness :
  (_mode (pid_base (Sample.new_pid HVAC_MODE_COOL None false)) = HVAC_MODE_COOL
   /\ Py.is_nan Sample.two_and_a_half = false)
  /\ _current_pid_params
       (self_after
          (set_pid_params
             (Some (gains Sample.two_and_a_half Sample.one_tenth Py.zero))
             (Sample.valve_room None)
             (Sample.new_pid HVAC_MODE_COOL None false)))
     = Obj (gains (Py.fneg Sample.two_and_a_half) (Py.fneg Sample.one_tenth)
              (S754_zero true)).
Proof.
  split; [split; reflexivity|].
  exact (proj1 (cooling_sign_convention (Sample.valve_room None)
                  (Sample.new_pid HVAC_MODE_COOL None false)
                  Sample.two_and_a_half Sample.one_tenth Py.zero eq_refl)).
Defined.

(** C4, as stated, fails: a stopped cooling controller, not inverted, is
    given [kp = nan]; [nan < 0] is false, the gains are inverted, the
    stored [kp] is [nan], and [nan <= 0] is false. *)
Lemma cooling_kp_nan_is_not_nonpositive :
  _mode (pid_base (with_pid IsNone (Sample.new_pid HVAC_MODE_COOL None false)))
    = HVAC_MODE_COOL
  /\ _inverted (pid_base (with_pid IsNone (Sample.new_pid HVAC_MODE_COOL None false)))
     = false
  /\ result (set_pid_params (Some (gains S754_nan Py.zero Py.zero))
               (Sample.valve_room None)
               (with_pid IsNone (Sample.new_pid HVAC_MODE_COOL None false)))
     = inr tt
  /\ _current_pid_params
       (self_after
          (set_pid_params (Some (gains S754_nan Py.zero Py.zero))
             (Sample.valve_room None)
             (with_pid IsNone (Sample.new_pid HVAC_MODE_COOL None false))))
     = Obj (gains S754_nan (S754_zero true) (S754_zero true))
  /\ Py.fle S754_nan Py.zero = false.
Proof. repeat split. Qed.

(** C3, at the failing inputs.  With ["2.5,0.1,0.0"] persisted, the
    current parameters become the three strings ["2.5"], ["0.1"],
    ["0.0"], not numbers.  With nothing persisted, the current parameters
    stay the typing object of [__init__]: the configured defaults are not
    taken. *)
Theorem restore_keeps_strings_and_skips_defaults :
  AbstractPidController_init "pid" HVAC_MODE_HEAT Sample.valve
    (Some Sample.defaults) false
  = inr (Sample.new_pid HVAC_MODE_HEAT (Some Sample.defaults) false)
  /\ (let o := async_added_to_hass (Some Sample.persisted) (Sample.valve_room None)
                 (Sample.new_pid HVAC_MODE_HEAT (Some Sample.defaults) false) in
      result o = inr tt
      /\ _current_pid_params (self_after o)
         = Obj (mkPidParams (PyStr "2.5") (PyStr "0.1") (PyStr "0.0"))
      /\ _current_pid_params (self_after o)
         <> Obj (gains Sample.two_and_a_half Sample.one_tenth Py.zero))
  /\ (let o := async_added_to_hass None (Sample.valve_room None)
                 (Sample.new_pid HVAC_MODE_HEAT (Some Sample.defaults) false) in
      result o = inr tt
      /\ trace o = []
      /\ _current_pid_params (self_after o) = Unset
      /\ _current_pid_params (self_after o) <> Obj Sample.defaults).
Proof. repeat split; try reflexivity; discriminate. Qed.

(** C8, at the failing input: a PID controller built without gain
    parameters and with nothing persisted.  [async_start] does not log an
    error and return: it raises [AttributeError], with an empty trace.
    The controller does stay stopped, and a later control call does
    nothing. *)
Theorem start_without_gain_parameters_raises :
  AbstractPidController_init "pid" HVAC_MODE_HEAT Sample.valve None false
  = inr (Sample.new_pid HVAC_MODE_HEAT None false)
  /\ self_after (async_added_to_hass None (Sample.valve_room None)
                   (Sample.new_pid HVAC_MODE_HEAT None false))
     = Sample.new_pid HVAC_MODE_HEAT None false
  /\ Sample.start (Sample.valve_room None) (Sample.new_pid HVAC_MODE_HEAT None false)
     = mkOutcome [] (Sample.new_pid HVAC_MODE_HEAT None false) (inl Py.AttributeError)
  /\ running (pid_base (Sample.new_pid HVAC_MODE_HEAT None false)) = false
  /\ Sample.control None false (Sample.valve_room None)
       (Sample.new_pid HVAC_MODE_HEAT None false)
     = mkOutcome [] (Sample.new_pid HVAC_MODE_HEAT None false) (inr tt).
Proof. repeat split. Qed.

(** C7, at the failing input: the controller computes 2.5 on a first
    tick and applies it; the valve then reports 2.5; the second tick
    computes 2.5 again and applies it again. *)
Theorem equal_output_is_applied_again :
  let first := Sample.control None false
                 (Sample.valve_room (Some (Sample.entity "0.0")))
                 Sample.running_pid in
  let second := Sample.control None false
                  (Sample.valve_room (Some (Sample.entity "2.5")))
                  (self_after first) in
  commands (trace first) = [ApplyOutput Sample.two_and_a_half]
  /\ result first = inr tt
  /\ commands (trace second) = [ApplyOutput Sample.two_and_a_half]
  /\ result second = inr tt.
Proof. repeat split. Qed.

(** ** Runs through the host's calls *)

Lemma split_comma_samples :
  Py.split_comma "2.5,0.1,0.0" = ["2.5"; "0.1"; "0.0"]
  /\ Py.split_comma "" = [""]
  /\ Py.split_comma "a,b" = ["a"; "b"].
Proof. repeat split. Qed.

(** Before the first start [self._pid] is still the typing object:
    [set_pid_params] stores the parameters, then raises at
    [self._pid.Kp = ...]. *)
Lemma set_pid_params_before_start :
  result (set_pid_params (Some (gains Sample.two_and_a_half Sample.one_tenth Py.zero))
            (Sample.valve_room None) (Sample.new_pid HVAC_MODE_HEAT None false))
  = inl Py.AttributeError
  /\ _current_pid_params
       (self_after
          (set_pid_params (Some (gains Sample.two_and_a_half Sample.one_tenth Py.zero))
             (Sample.valve_room None) (Sample.new_pid HVAC_MODE_HEAT None false)))
     = Obj (gains Sample.two_and_a_half Sample.one_tenth Py.zero).
Proof. repeat split. Qed.

(** Restore, start, stop, set the gains 2.5, 0.1, 0.0, start again: the
    [PID] of the second start has [Kd = 2.5]. *)
Lemma kd_from_kp_through_the_calls :
  _pid (after tt (fun _ _ => tt) Sample.p_call Sample.valve_limits
          [ (Sample.valve_room None, AddedToHass (Some Sample.persisted));
            (Sample.valve_room None, Start);
            (Sample.valve_room None, Stop);
            (Sample.valve_room None,
             SetPidParams (Some (gains Sample.two_and_a_half Sample.one_tenth Py.zero)));
            (Sample.valve_room None, Start) ]
          (Sample.new_pid HVAC_MODE_HEAT (Some Sample.defaults) false))
  = Obj (mkPID (PyFloat Sample.two_and_a_half) (PyFloat Sample.one_tenth)
           (PyFloat Sample.two_and_a_half) (Some Sample.t21)
           (Some Py.zero, Some (Py.dyadic 100 0)) true tt).
Proof. reflexivity. Qed.

(** The spec's scenario for the gate: with [force] the too-warm room
    turns the heater off at once; with an unknown actuator the tick is
    silent. *)
Lemma gate_samples :
  commands (trace (tick None true Sample.on_for_two_minutes
                     (Sample.heating_switch false (Some Sample.five_minutes))))
  = [ServiceCall "homeassistant" "turn_off" "switch.heater"]
  /\ tick None false Sample.actuator_unknown
       (Sample.heating_switch false (Some Sample.five_minutes))
     = mkOutcome [] (Sample.heating_switch false (Some Sample.five_minutes)) (inr tt)
  /\ commands (trace (tick None false (Sample.cold_room "off")
                        (Sample.heating_switch true None)))
     = [ServiceCall "homeassistant" "turn_off" "switch.heater"].
Proof. repeat split. Qed.

(** * Further properties *)

(** ** The hysteresis controller, beyond the band *)

Lemma switch_tick_stopped time force env (self : SwitchController) :
  running (switch_base self) = false ->
  tick time force env self = mkOutcome [] self (inr tt).
Proof.
  intros Hr. unfold tick, async_control. rewrite bind_get.
  cbn [base SwitchController_Controller]. rewrite Hr. reflexivity.
Qed.

(** The comparisons raise exactly when a reading is missing, whatever
    the tolerances. *)
Lemma too_cold_cases (self : SwitchController) cur_temp target_temp :
  match cur_temp, target_temp with
  | Some x, Some y =>
      Switch.too_cold self cur_temp target_temp
      = inr (Py.fle x (Py.fsub y (_cold_tolerance self)))
  | _, _ => Switch.too_cold self cur_temp target_temp = inl Py.TypeError
  end.
Proof. destruct cur_temp, target_temp; reflexivity. Qed.

Lemma too_hot_cases (self : SwitchController) cur_temp target_temp :
  match cur_temp, target_temp with
  | Some x, Some y =>
      Switch.too_hot self cur_temp target_temp
      = inr (Py.fge x (Py.fadd y (_hot_tolerance self)))
  | _, _ => Switch.too_hot self cur_temp target_temp = inl Py.TypeError
  end.
Proof. destruct cur_temp, target_temp; reflexivity. Qed.

Lemma decide_and_actuate_raises cur_temp target_temp time env
    (self : SwitchController) :
  cur_temp = None \/ target_temp = None ->
  Switch.decide_and_actuate cur_temp target_temp time env self
  = mkOutcome [] self (inl Py.TypeError).
Proof.
  intros Hnone. unfold Switch.decide_and_actuate. rewrite bind_get, bind_ask.
  destruct cur_temp as [x|], target_temp as [y|];
    try (destruct Hnone; discriminate); reflexivity.
Qed.

Lemma expected_commands_short (self : SwitchController) is_on need_on keep_alive :
  (length (expected_commands self is_on need_on keep_alive) <= 1)%nat.
Proof. destruct is_on, need_on, keep_alive; cbn; lia. Qed.

(** X1: a tick of the hysteresis controller, of any kind and in any
    state of the host, issues at most one actuation command and leaves
    the controller object as it was, also when it raises. *)
Theorem switch_tick_at_most_one_command time force env (self : SwitchController) :
  (length (commands (trace (tick time force env self))) <= 1)%nat
  /\ self_after (tick time force env self) = self.
Proof.
  destruct (running (switch_base self)) eqn:Hr.
  2:{ rewrite switch_tick_stopped by assumption. cbn. split; [lia|reflexivity]. }
  rewrite switch_tick_running, switch_control_outcome by assumption.
  destruct (result (Switch.gate time force env self)) as [e|[|]];
    try (cbn; split; [lia|reflexivity]).
  destruct (current_temperature env) as [x|] eqn:Hx;
    [destruct (target_temperature env) as [y|] eqn:Hy|].
  - pose proof (too_cold_cases self (Some x) (Some y)) as Hc.
    pose proof (too_hot_cases self (Some x) (Some y)) as Hh.
    cbn beta iota in Hc, Hh.
    destruct (decide_and_actuate_outcome _ _ time env self _ _ Hc Hh)
      as (-> & -> & _).
    split; [apply expected_commands_short|reflexivity].
  - rewrite decide_and_actuate_raises by auto. cbn. split; [lia|reflexivity].
  - rewrite decide_and_actuate_raises by auto. cbn. split; [lia|reflexivity].
Qed.

Lemma switch_tick_raises time force env (self : SwitchController) :
  running (switch_base self) = true ->
  result (Switch.gate time force env self) = inr false ->
  current_temperature env = None \/ target_temperature env = None ->
  tick time force env self = mkOutcome [] self (inl Py.TypeError).
Proof.
  intros Hr Hg Hnone.
  rewrite switch_tick_running, switch_control_outcome, Hg by assumption.
  apply decide_and_actuate_raises, Hnone.
Qed.

(** X4: with the gate open, a missing reading (current or target
    temperature [None]) makes the tick raise [TypeError] before anything
    is logged or commanded. *)
Theorem switch_tick_without_reading time force env (self : SwitchController) :
  running (switch_base self) = true ->
  result (Switch.gate time force env self) = inr false ->
  current_temperature env = None \/ target_temperature env = None ->
  tick time force env self = mkOutcome [] self (inl Py.TypeError).
Proof. apply switch_tick_raises. Qed.

Lemma switch_tick_without_reading_witness :
  (running (switch_base (Sample.heating_switch false None)) = true
   /\ current_temperature
        (Sample.host HVAC_MODE_HEAT None (Some Sample.t20)
           (Some (Sample.entity "on")) (inr true)) = None)
  /\ tick None false
       (Sample.host HVAC_MODE_HEAT None (Some Sample.t20)
          (Some (Sample.entity "on")) (inr true))
       (Sample.heating_switch false None)
     = mkOutcome [] (Sample.heating_switch false None) (inl Py.TypeError).
Proof.
  split; [split; reflexivity|].
  apply switch_tick_without_reading; [reflexivity|reflexivity|left; reflexivity].
Defined.

(** The commands of a tick that passes the gate with both readings. *)
Lemma switch_tick_open time force env (self : SwitchController) (x y : float) :
  running (switch_base self) = true ->
  result (Switch.gate time force env self) = inr false ->
  current_temperature env = Some x ->
  target_temperature env = Some y ->
  commands (trace (tick time force env self))
  = expected_commands self (Switch._is_on env self)
      (Switch.need_turn_on self env
         (Py.fle x (Py.fsub y (_cold_tolerance self)))
         (Py.fge x (Py.fadd y (_hot_tolerance self))))
      (negb (bool_decide (time = None)))
  /\ result (tick time force env self) = inr tt.
Proof.
  intros Hr Hg Hx Hy.
  rewrite switch_tick_running, switch_control_outcome, Hg, Hx, Hy by assumption.
  pose proof (too_cold_cases self (Some x) (Some y)) as Hc.
  pose proof (too_hot_cases self (Some x) (Some y)) as Hh.
  cbn beta iota in Hc, Hh.
  destruct (decide_and_actuate_outcome _ _ time env self _ _ Hc Hh) as (-> & _ & ->).
  split; reflexivity.
Qed.

(** Every tick is silent, or is one of the open ticks above. *)
Lemma switch_tick_cases time force env (self : SwitchController) :
  (commands (trace (tick time force env self)) = []
   /\ (running (switch_base self) = false
       \/ result (Switch.gate time force env self) <> inr false
       \/ current_temperature env = None \/ target_temperature env = None))
  \/ exists x y,
       running (switch_base self) = true
       /\ result (Switch.gate time force env self) = inr false
       /\ current_temperature env = Some x /\ target_temperature env = Some y.
Proof.
  destruct (running (switch_base self)) eqn:Hr.
  2:{ left. rewrite switch_tick_stopped by assumption. auto. }
  destruct (result (Switch.gate time force env self)) as [e|[|]] eqn:Hg.
  1,2: left; rewrite switch_tick_running, switch_control_outcome, Hg by assumption;
       split; [reflexivity|right; left; congruence].
  destruct (current_temperature env) as [x|] eqn:Hx;
    [destruct (target_temperature env) as [y|] eqn:Hy|].
  - right. exists x, y. auto.
  - left. rewrite switch_tick_raises by auto. auto.
  - left. rewrite switch_tick_raises by auto. auto.
Qed.

Lemma need_turn_on_other_mode (self : SwitchController) env cold hot :
  hvac_mode env <> _mode (switch_base self) ->
  hvac_mode env <> HVAC_MODE_HEAT_COOL ->
  Switch.need_turn_on self env cold hot = false.
Proof.
  intros Hm Hhc. unfold Switch.need_turn_on, str_in. cbn [existsb].
  apply String.eqb_neq in Hhc. rewrite Hhc, !orb_false_r.
  destruct (String.eqb_spec (_mode (switch_base self)) HVAC_MODE_COOL) as [Ec|_];
    destruct (String.eqb_spec (_mode (switch_base self)) HVAC_MODE_HEAT) as [Eh|_];
    rewrite ?andb_false_r; cbn [andb orb];
    try reflexivity.
  - rewrite Ec in Eh. discriminate.
  - rewrite Ec in Hm. apply String.eqb_neq in Hm. rewrite Hm, andb_false_r. reflexivity.
  - rewrite Eh in Hm. apply String.eqb_neq in Hm. rewrite Hm, !andb_false_r. reflexivity.
Qed.

(** X2: when the thermostat's HVAC mode is neither the mode of the
    controller nor heat_cool (it is off, say), no tick turns the actuator
    on: a tick issues nothing, or the turn-off command alone. *)
Theorem other_hvac_mode_never_turns_on time force env (self : SwitchController) :
  hvac_mode env <> _mode (switch_base self) ->
  hvac_mode env <> HVAC_MODE_HEAT_COOL ->
  commands (trace (tick time force env self)) = []
  \/ commands (trace (tick time force env self)) = [turn_off_command self].
Proof.
  intros Hm Hhc.
  destruct (switch_tick_cases time force env self)
    as [[Hsilent _]|(x & y & Hr & Hg & Hx & Hy)]; [left; exact Hsilent|].
  destruct (switch_tick_open time force env self x y Hr Hg Hx Hy) as [-> _].
  rewrite need_turn_on_other_mode by assumption.
  destruct (Switch._is_on env self), (negb (bool_decide (time = None))); cbn; auto.
Qed.

Lemma other_hvac_mode_never_turns_on_witness :
  (hvac_mode (Sample.host HVAC_MODE_OFF (Some Sample.t15) (Some Sample.t20)
                (Some (Sample.entity "on")) (inr true))
   <> _mode (switch_base (Sample.heating_switch false None)))
  /\ commands (trace (tick None false
                        (Sample.host HVAC_MODE_OFF (Some Sample.t15) (Some Sample.t20)
                           (Some (Sample.entity "on")) (inr true))
                        (Sample.heating_switch false None)))
     = [ServiceCall "homeassistant" "turn_off" "switch.heater"].
Proof.
  split; [discriminate|].
  destruct (other_hvac_mode_never_turns_on None false
              (Sample.host HVAC_MODE_OFF (Some Sample.t15) (Some Sample.t20)
                 (Some (Sample.entity "on")) (inr true))
              (Sample.heating_switch false None)) as [H|H];
    [discriminate | discriminate | discriminate H | exact H].
Defined.

Lemma need_turn_on_heat (self : SwitchController) env cold hot :
  _mode (switch_base self) = HVAC_MODE_HEAT ->
  Switch.need_turn_on self env cold hot
  = cold && str_in (hvac_mode env) [HVAC_MODE_HEAT; HVAC_MODE_HEAT_COOL].
Proof.
  intros Hm. unfold Switch.need_turn_on. rewrite Hm.
  change (HVAC_MODE_HEAT =? HVAC_MODE_COOL)%string with false.
  change (HVAC_MODE_HEAT =? HVAC_MODE_HEAT)%string with true.
  rewrite andb_false_r, andb_true_r. reflexivity.
Qed.

Lemma need_turn_on_cool (self : SwitchController) env cold hot :
  _mode (switch_base self) = HVAC_MODE_COOL ->
  Switch.need_turn_on self env cold hot
  = hot && str_in (hvac_mode env) [HVAC_MODE_COOL; HVAC_MODE_HEAT_COOL].
Proof.
  intros Hm. unfold Switch.need_turn_on. rewrite Hm.
  change (HVAC_MODE_COOL =? HVAC_MODE_COOL)%string with true.
  change (HVAC_MODE_COOL =? HVAC_MODE_HEAT)%string with false.
  rewrite andb_false_r, andb_true_r, orb_false_r. reflexivity.
Qed.

(** Another tolerance changes neither the gate nor whether the tick is
    silent. *)
Lemma switch_tick_same_commands time force env (self self' : SwitchController) :
  switch_base self' = switch_base self ->
  _min_cycle_duration self' = _min_cycle_duration self ->
  (forall x y,
      Switch.need_turn_on self' env
        (Py.fle x (Py.fsub y (_cold_tolerance self')))
        (Py.fge x (Py.fadd y (_hot_tolerance self')))
      = Switch.need_turn_on self env
          (Py.fle x (Py.fsub y (_cold_tolerance self)))
          (Py.fge x (Py.fadd y (_hot_tolerance self)))) ->
  commands (trace (tick time force env self'))
  = commands (trace (tick time force env self)).
Proof.
  intros Hb Hd Hneed.
  assert (Hgate : result (Switch.gate time force env self')
                  = result (Switch.gate time force env self)).
  { unfold Switch.gate. rewrite !bind_get, !bind_ask.
    unfold Switch._is_on. rewrite Hb, Hd.
    destruct (negb force && bool_decide (time = None)
              && duration_truthy (_min_cycle_duration self)); [|reflexivity].
    destruct (condition_state env _ _ _) as [[]|b]; reflexivity. }
  destruct (switch_tick_cases time force env self)
    as [[Hsilent Hwhy]|(x & y & Hr & Hg & Hx & Hy)].
  - rewrite Hsilent.
    destruct (switch_tick_cases time force env self')
      as [[Hsilent' _]|(x & y & Hr & Hg & Hx & Hy)]; [exact Hsilent'|].
    exfalso. rewrite Hb in Hr. rewrite Hgate in Hg.
    destruct Hwhy as [H|[H|[H|H]]]; congruence.
  - destruct (switch_tick_open time force env self x y Hr Hg Hx Hy) as [-> _].
    rewrite <- Hb in Hr. rewrite <- Hgate in Hg.
    destruct (switch_tick_open time force env self' x y Hr Hg Hx Hy) as [-> _].
    rewrite Hneed. unfold Switch._is_on, expected_commands,
      turn_on_command, turn_off_command. rewrite Hb. reflexivity.
Qed.

(** X3: a heating switch never looks at its hot tolerance, and a cooling
    switch never looks at its cold tolerance: with any other value there,
    every tick issues the same commands. *)
Theorem off_side_tolerance_unused time force env (self : SwitchController)
    (other : float) :
  (_mode (switch_base self) = HVAC_MODE_HEAT ->
   commands (trace (tick time force env (with_hot_tolerance other self)))
   = commands (trace (tick time force env self)))
  /\ (_mode (switch_base self) = HVAC_MODE_COOL ->
      commands (trace (tick time force env (with_cold_tolerance other self)))
      = commands (trace (tick time force env self))).
Proof.
  split; intros Hm; apply switch_tick_same_commands; try reflexivity; intros x y.
  - rewrite !need_turn_on_heat by exact Hm. reflexivity.
  - rewrite !need_turn_on_cool by exact Hm. reflexivity.
Qed.

Lemma off_side_tolerance_unused_witness :
  commands (trace (tick None false (Sample.warm_room "off")
                     (with_hot_tolerance Sample.t25
                        (Sample.heating_switch false None))))
  = commands (trace (tick None false (Sample.warm_room "off")
                       (Sample.heating_switch false None))).
Proof.
  exact (proj1 (off_side_tolerance_unused None false (Sample.warm_room "off")
                  (Sample.heating_switch false None) Sample.t25) eq_refl).
Defined.

(** X5: with the gate open and the thermostat in the controller's own
    mode or in heat_cool, the switch follows the comparison of its mode,
    [too_cold] for heating and [too_hot] for cooling: off and wanted
    gives turn-on, on and not wanted gives turn-off, and the two other
    cases give a command on keep-alive ticks only. *)
Theorem switch_follows_its_comparison time force env (self : SwitchController)
    (cold hot : bool) :
  running (switch_base self) = true ->
  result (Switch.gate time force env self) = inr false ->
  str_in (_mode (switch_base self)) [HVAC_MODE_COOL; HVAC_MODE_HEAT] = true ->
  str_in (hvac_mode env) [_mode (switch_base self); HVAC_MODE_HEAT_COOL] = true ->
  Switch.too_cold self (current_temperature env) (target_temperature env) = inr cold ->
  Switch.too_hot self (current_temperature env) (target_temperature env) = inr hot ->
  commands (trace (tick time force env self))
  = expected_commands self (Switch._is_on env self)
      (if String.eqb (_mode (switch_base self)) HVAC_MODE_HEAT then cold else hot)
      (negb (bool_decide (time = None))).
Proof.
  intros Hr Hg Hmode Hhvac Hc Hh.
  rewrite switch_tick_running, switch_control_outcome, Hg by assumption.
  destruct (decide_and_actuate_outcome _ _ time env self cold hot Hc Hh)
    as (-> & _ & _).
  f_equal. apply str_in_modes in Hmode. destruct Hmode as [Hm|Hm].
  - rewrite need_turn_on_heat by exact Hm. rewrite Hm in Hhvac |- *.
    rewrite Hhvac, andb_true_r. reflexivity.
  - rewrite need_turn_on_cool by exact Hm. rewrite Hm in Hhvac |- *.
    rewrite Hhvac, andb_true_r. reflexivity.
Qed.

Lemma switch_follows_its_comparison_witness :
  (running (switch_base (Sample.heating_switch false None)) = true
   /\ Switch.too_cold (Sample.heating_switch false None)
        (current_temperature (Sample.cold_room "off"))
        (target_temperature (Sample.cold_room "off")) = inr true)
  /\ commands (trace (tick None false (Sample.cold_room "off")
                        (Sample.heating_switch false None)))
     = [ServiceCall "homeassistant" "turn_on" "switch.heater"].
Proof.
  split; [split; reflexivity|].
  exact (switch_follows_its_comparison None false (Sample.cold_room "off")
           (Sample.heating_switch false None) true false
           eq_refl eq_refl eq_refl eq_refl eq_refl eq_refl).
Defined.

(** X6: starting a hysteresis controller always succeeds and commands
    nothing; stopping it always issues the turn-off command, whatever the
    actuator reports, and clears [running]; after that every control call
    is silent. *)
Theorem switch_start_and_stop env (self : SwitchController) :
  async_start env self
  = mkOutcome [Log DEBUG "Started controller"]
      (set_base (with_running true (switch_base self)) self) (inr tt)
  /\ async_stop env self
     = mkOutcome [Log DEBUG "Stopping controller"; turn_off_command self]
         (set_base (with_running false (switch_base self)) self) (inr tt)
  /\ forall time force env',
       tick time force env' (self_after (async_stop env self))
       = mkOutcome [] (self_after (async_stop env self)) (inr tt).
Proof.
  assert (Hstop : async_stop env self
     = mkOutcome [Log DEBUG "Stopping controller"; turn_off_command self]
         (set_base (with_running false (switch_base self)) self) (inr tt)).
  { unfold async_stop, set_running.
    cbn [_async_stop base set_base SwitchController_Controller].
    unfold Switch._async_stop, bind, log, emit. cbn [result trace self_after].
    rewrite turn_off_outcome. reflexivity. }
  split; [reflexivity|]. split; [exact Hstop|].
  intros time force env'. rewrite Hstop. cbn [self_after].
  apply switch_tick_stopped. reflexivity.
Qed.

Lemma expected_commands_flip (self : SwitchController) is_on need_on keep_alive :
  expected_commands (flip_inverted self) is_on need_on keep_alive
  = map swap_service (expected_commands self is_on need_on keep_alive).
Proof.
  unfold expected_commands, turn_on_command, turn_off_command, flip_inverted.
  cbn [switch_base _inverted _target_entity_id].
  destruct is_on, need_on, keep_alive, (_inverted (switch_base self)); reflexivity.
Qed.

(** X7: the [inverted] flag does nothing but exchange the two services:
    the same tick on the controller with the flag the other way round
    issues the same commands with turn-on and turn-off swapped. *)
Theorem inverted_swaps_services time force env (self : SwitchController) :
  commands (trace (tick time force env (flip_inverted self)))
  = map swap_service (commands (trace (tick time force env self))).
Proof.
  assert (Hgate : result (Switch.gate time force env (flip_inverted self))
                  = result (Switch.gate time force env self)).
  { unfold Switch.gate. rewrite !bind_get, !bind_ask.
    unfold Switch._is_on, flip_inverted.
    cbn [switch_base _target_entity_id _min_cycle_duration].
    destruct (negb force && bool_decide (time = None)
              && duration_truthy (_min_cycle_duration self)); [|reflexivity].
    destruct (condition_state env _ _ _) as [[]|b]; reflexivity. }
  destruct (switch_tick_cases time force env self)
    as [[Hsilent Hwhy]|(x & y & Hr & Hg & Hx & Hy)].
  - rewrite Hsilent.
    destruct (switch_tick_cases time force env (flip_inverted self))
      as [[Hsilent' _]|(x & y & Hr & Hg & Hx & Hy)]; [exact Hsilent'|].
    exfalso. rewrite Hgate in Hg. cbn in Hr.
    destruct Hwhy as [H|[H|[H|H]]]; congruence.
  - destruct (switch_tick_open time force env self x y Hr Hg Hx Hy) as [-> _].
    rewrite <- Hgate in Hg.
    destruct (switch_tick_open time force env (flip_inverted self) x y Hr Hg Hx Hy)
      as [-> _].
    rewrite expected_commands_flip. reflexivity.
Qed.

(** ** The PID controller: parameters *)

Section PidFurther.

Context {acc : Type}.
Variable pid_fresh : acc.
Variable pid_resume : PID acc -> pyval -> acc.
Variable pid_call : PID acc -> option float -> acc * (exn + float).
Variable _get_output_limits : AbstractPidController acc -> limits.

Local Abbreviation start := (pid_start pid_fresh pid_resume pid_call _get_output_limits).
Local Abbreviation stop := (pid_stop pid_fresh pid_resume pid_call _get_output_limits).
Local Abbreviation control := (pid_control pid_fresh pid_resume pid_call _get_output_limits).
Local Abbreviation do_call := (perform pid_fresh pid_resume pid_call _get_output_limits).
Local Abbreviation after_calls := (after pid_fresh pid_resume pid_call _get_output_limits).

(** The [PID] with the tunings of [p]. *)
Local Abbreviation tuned p pid :=
  (mkPID (kp p) (ki p) (kd p) (setpoint pid) (output_limits pid) (auto_mode pid)
     (accumulators pid)).

Lemma retune_full env (s : AbstractPidController acc) (p : PidParams) :
  retune p env s
  = match _pid s with
    | Unset => mkOutcome [] s (inl Py.AttributeError)
    | IsNone => mkOutcome [] s (inr tt)
    | Obj pid => mkOutcome [] (with_pid (Obj (tuned p pid)) s) (inr tt)
    end.
Proof. unfold retune. rewrite bind_get. destruct (_pid s); reflexivity. Qed.

(** Once the parameters to store are known, the rest of
    [set_pid_params] is the assignment and the retuning. *)
Lemma set_pid_params_tail env (self : AbstractPidController acc) (p2 : PidParams)
    (k : Eff (AbstractPidController acc) unit) :
  let o := bind (put (with_current (Obj p2) self))
             (fun _ => bind (retune p2) (fun _ => k)) env self in
  self_after o
  = match _pid self with
    | Obj pid => self_after (k env (with_pid (Obj (tuned p2 pid)) (with_current (Obj p2) self)))
    | IsNone => self_after (k env (with_current (Obj p2) self))
    | Unset => with_current (Obj p2) self
    end
  /\ result o
     = match _pid self with
       | Obj pid => result (k env (with_pid (Obj (tuned p2 pid)) (with_current (Obj p2) self)))
       | IsNone => result (k env (with_current (Obj p2) self))
       | Unset => inl Py.AttributeError
       end.
Proof.
  cbv zeta. erewrite bind_inr by reflexivity. cbn [self_after result].
  unfold bind. rewrite retune_full. cbn [_pid with_current].
  destruct (_pid self); cbn [result self_after trace]; split; reflexivity.
Qed.

(** X8: in any mode but cool and without [inverted], [set_pid_params]
    stores the object it is given as it is, whatever its fields hold; it
    returns normally unless [self._pid] is still the typing object. *)
Theorem plain_set_pid_params_stores_verbatim env (self : AbstractPidController acc)
    (p : PidParams) :
  _mode (pid_base self) <> HVAC_MODE_COOL ->
  _inverted (pid_base self) = false ->
  _current_pid_params (self_after (set_pid_params (Some p) env self)) = Obj p
  /\ (_pid self <> Unset -> result (set_pid_params (Some p) env self) = inr tt).
Proof.
  intros Hm Hi. apply String.eqb_neq in Hm.
  unfold set_pid_params. rewrite bind_get, Hm, Hi, !bind_ret_l.
  destruct (set_pid_params_tail env self p (log INFO "New PID params")) as [-> ->].
  destruct (_pid self); split; try reflexivity; congruence.
Qed.

(** The object and the result after [set_pid_params] on float gains. *)
Lemma set_pid_params_floats env (self : AbstractPidController acc) (a b c : float) :
  let p := gains a b c in
  let p1 := if String.eqb (_mode (pid_base self)) HVAC_MODE_COOL
               && negb (Py.flt a Py.zero)
            then negated p else p in
  let p2 := if _inverted (pid_base self) then negated p1 else p1 in
  let o := set_pid_params (Some p) env self in
  self_after o
  = match _pid self with
    | Obj pid => with_pid (Obj (tuned p2 pid)) (with_current (Obj p2) self)
    | _ => with_current (Obj p2) self
    end
  /\ result o
     = match _pid self with
       | Unset => inl Py.AttributeError
       | _ => inr tt
       end.
Proof.
  cbv zeta. unfold set_pid_params. rewrite bind_get.
  set (p1 := if String.eqb (_mode (pid_base self)) HVAC_MODE_COOL
               && negb (Py.flt a Py.zero)
             then negated (gains a b c) else gains a b c).
  set (p2 := if _inverted (pid_base self) then negated p1 else p1).
  assert (Hfloat1 : exists x y z, p1 = gains x y z).
  { subst p1. destruct (_ && _); rewrite ?negated_gains; eauto. }
  destruct Hfloat1 as (x & y & z & Hp1).
  erewrite bind_inr; cycle 1.
  { instantiate (1 := p1). instantiate (1 := self).
    instantiate (1 := if String.eqb (_mode (pid_base self)) HVAC_MODE_COOL
                         && negb (Py.flt a Py.zero)
                      then [Log WARNING
                              "Cooler mode but kp not negative. Inverting all PID params"]
                      else []).
    subst p1.
    destruct (String.eqb (_mode (pid_base self)) HVAC_MODE_COOL); [|reflexivity].
    change (Py.lt_zero (kp (gains a b c))) with (@inr exn bool (Py.flt a Py.zero)).
    rewrite bind_eval_inr. destruct (Py.flt a Py.zero); reflexivity. }
  cbn [trace self_after result].
  erewrite bind_inr; cycle 1.
  { instantiate (1 := p2). instantiate (1 := self).
    instantiate (1 := if _inverted (pid_base self)
                      then [Log INFO
                              "Target behavior inverted requested in config. Inverting all PID params"]
                      else []).
    subst p2. rewrite Hp1.
    destruct (_inverted (pid_base self)); reflexivity. }
  cbn [trace self_after result].
  destruct (set_pid_params_tail env self p2 (log INFO "New PID params")) as [-> ->].
  destruct (_pid self); split; reflexivity.
Qed.

(** X9: on a controller that holds a [PID] (a running one),
    [set_pid_params] with float gains returns normally and retunes that
    [PID] in place: its [Kp], [Ki] and [Kd] become the [kp], [ki] and
    [kd] just stored, while setpoint, output limits and accumulators stay
    as they are. *)
Theorem set_pid_params_retunes_running env (self : AbstractPidController acc)
    (pid : PID acc) (a b c : float) :
  _pid self = Obj pid ->
  let o := set_pid_params (Some (gains a b c)) env self in
  exists p2,
    result o = inr tt
    /\ _current_pid_params (self_after o) = Obj p2
    /\ _pid (self_after o)
       = Obj (mkPID (kp p2) (ki p2) (kd p2) (setpoint pid) (output_limits pid)
                (auto_mode pid) (accumulators pid))
    /\ pid_base (self_after o) = pid_base self.
Proof.
  intros Hpid. cbv zeta.
  destruct (set_pid_params_floats env self a b c) as [Hs Hr].
  cbv zeta in Hs, Hr. rewrite Hpid in Hs, Hr. rewrite Hs, Hr.
  eexists. repeat split.
Qed.

Lemma flt_neg_of_positive (x : float) :
  Py.is_nan x = false -> Py.feq x Py.zero = false -> Py.flt x Py.zero = false ->
  Py.flt (Py.fneg x) Py.zero = true.
Proof. destruct x as [[]|[]| |[] m e]; cbn; congruence. Qed.

Lemma flt_neg_of_negative (x : float) :
  Py.flt x Py.zero = true -> Py.flt (Py.fneg x) Py.zero = false.
Proof. destruct x as [[]|[]| |[] m e]; cbn; congruence. Qed.

(** X10: in cool mode, giving [set_pid_params] the parameters it has
    just stored stores them again unchanged, with or without [inverted],
    provided [kp] is a number other than zero. *)
Theorem cooling_parameters_are_stable env env' (self : AbstractPidController acc)
    (a b c : float) :
  _mode (pid_base self) = HVAC_MODE_COOL ->
  Py.is_nan a = false ->
  Py.feq a Py.zero = false ->
  let once := self_after (set_pid_params (Some (gains a b c)) env self) in
  exists x y z,
    _current_pid_params once = Obj (gains x y z)
    /\ _current_pid_params
         (self_after (set_pid_params (Some (gains x y z)) env' once))
       = Obj (gains x y z).
Proof.
  intros Hm Hnan Hnz. cbv zeta.
  destruct (set_pid_params_floats env self a b c) as [Hs _]. cbv zeta in Hs.
  destruct (set_pid_params_stores env self a b c) as [Hc _]. cbv zeta in Hc.
  set (once := self_after (set_pid_params (Some (gains a b c)) env self)) in *.
  assert (Hbase : pid_base once = pid_base self).
  { rewrite Hs. destruct (_pid self); reflexivity. }
  rewrite Hm in Hc. change (HVAC_MODE_COOL =? HVAC_MODE_COOL)%string with true in Hc.
  cbn [andb] in Hc.
  assert (Hagain : forall x y z,
             Py.flt x Py.zero = negb (_inverted (pid_base self)) ->
             _current_pid_params
               (self_after (set_pid_params (Some (gains x y z)) env' once))
             = Obj (gains x y z)).
  { intros x y z Hx.
    destruct (set_pid_params_stores env' once x y z) as [Hc' _]. cbv zeta in Hc'.
    rewrite Hbase, Hm in Hc'.
    change (HVAC_MODE_COOL =? HVAC_MODE_COOL)%string with true in Hc'.
    cbn [andb] in Hc'. rewrite Hc', Hx.
    destruct (_inverted (pid_base self)); cbn [negb];
      rewrite ?negated_gains, ?fneg_involutive; reflexivity. }
  destruct (Py.flt a Py.zero) eqn:Hneg, (_inverted (pid_base self)) eqn:Hinv;
    cbn [negb] in Hc; rewrite ?negated_gains in Hc;
    do 3 eexists; (split; [exact Hc|]); apply Hagain; cbn [negb];
    auto using flt_neg_of_positive, flt_neg_of_negative.
Qed.

(** ** The PID controller: life cycle and ticks *)

Lemma stop_outcome env (self : AbstractPidController acc) :
  stop env self
  = mkOutcome [Log DEBUG "Stopping controller"]
      (mkAbstractPidController (with_running false (pid_base self))
         (_initial_pid_params self) (_current_pid_params self) IsNone)
      (inr tt).
Proof. reflexivity. Qed.

(** X11: stopping a PID controller sends nothing to the actuator; it
    drops the [PID], clears [running] and keeps the current parameters.
    After it every control call is silent, [set_pid_params] with float
    gains returns normally, and a start with the kept parameters
    succeeds. *)
Theorem pid_stop_then env (self : AbstractPidController acc) :
  let stopped := self_after (stop env self) in
  commands (trace (stop env self)) = []
  /\ result (stop env self) = inr tt
  /\ _pid stopped = IsNone
  /\ running (pid_base stopped) = false
  /\ _current_pid_params stopped = _current_pid_params self
  /\ (forall time force env',
        control time force env' stopped = mkOutcome [] stopped (inr tt))
  /\ (forall a b c env',
        result (set_pid_params (Some (gains a b c)) env' stopped) = inr tt)
  /\ (forall p env',
        _current_pid_params self = Obj p ->
        result (start env' stopped) = inr tt
        /\ running (pid_base (self_after (start env' stopped))) = true).
Proof.
  cbv zeta. rewrite stop_outcome. cbn [trace self_after result].
  do 5 (split; [reflexivity|]).
  split; [|split].
  - intros time force env'. apply control_stopped. reflexivity.
  - intros a b c env'.
    destruct (set_pid_params_floats env'
                (mkAbstractPidController (with_running false (pid_base self))
                   (_initial_pid_params self) (_current_pid_params self) IsNone)
                a b c) as [_ Hr].
    exact Hr.
  - intros p env' Hp.
    destruct (start_with_params pid_fresh pid_resume pid_call _get_output_limits env'
                (mkAbstractPidController (with_running false (pid_base self))
                   (_initial_pid_params self) (_current_pid_params self) IsNone)
                p Hp) as (pid & -> & -> & _).
    split; reflexivity.
Qed.

(** The [PID] a tick computes with: the setpoint is replaced when it
    differs from the target. *)
Local Abbreviation aimed env pid :=
  (if py_ne (of_temp (setpoint pid)) (of_temp (target_temperature env))
   then with_setpoint (target_temperature env) pid else pid).

(** A tick of a running controller that holds a [PID], in full. *)
Lemma control_outcome time force env (self : AbstractPidController acc) (pid : PID acc) :
  running (pid_base self) = true ->
  _pid self = Obj pid ->
  let o := control time force env self in
  let computed := pid_call (aimed env pid) (current_temperature env) in
  self_after o = with_pid (Obj (with_accumulators (fst computed) (aimed env pid))) self
  /\ result o = match snd computed with inl e => inl e | inr _ => inr tt end
  /\ commands (trace o)
     = match snd computed with inl _ => [] | inr output => [ApplyOutput output] end.
Proof.
  intros Hr Hpid. cbv zeta. unfold pid_control, async_control. rewrite bind_get.
  cbn [base AbstractPidController_Controller]. rewrite Hr. cbn [negb].
  rewrite bind_ask. cbn [_async_control AbstractPidController_Controller].
  unfold pid_async_control. rewrite bind_get, bind_ask, Hpid.
  destruct (py_ne (of_temp (setpoint pid)) (of_temp (target_temperature env)));
    unfold bind, log, emit, put, ret, eval; cbn;
    destruct (pid_call _ (current_temperature env)) as [a [e|output]]; cbn;
    rewrite ?state_ne_float; cbn; auto.
Qed.

(** X12: a tick of a running PID controller applies exactly the value
    its computation returns, and applies nothing when the computation
    raises; the exception is then the result of the tick. *)
Theorem pid_tick_applies_the_computed_output time force env
    (self : AbstractPidController acc) (pid : PID acc) :
  running (pid_base self) = true ->
  _pid self = Obj pid ->
  match snd (pid_call (aimed env pid) (current_temperature env)) with
  | inr output =>
      commands (trace (control time force env self)) = [ApplyOutput output]
      /\ result (control time force env self) = inr tt
  | inl e =>
      commands (trace (control time force env self)) = []
      /\ result (control time force env self) = inl e
  end.
Proof.
  intros Hr Hpid.
  destruct (control_outcome time force env self pid Hr Hpid) as (_ & Hres & Hcmd).
  cbv zeta in Hres, Hcmd.
  destruct (snd (pid_call _ (current_temperature env))); auto.
Qed.

(** X13: a tick never changes the tunings, the output limits, the stored
    parameters or [running]; after it the setpoint of the [PID] is the
    thermostat's target, or compares equal to it. *)
Theorem pid_tick_tracks_the_target time force env
    (self : AbstractPidController acc) (pid : PID acc) :
  running (pid_base self) = true ->
  _pid self = Obj pid ->
  let after_tick := self_after (control time force env self) in
  exists pid',
    _pid after_tick = Obj pid'
    /\ Kp pid' = Kp pid /\ Ki pid' = Ki pid /\ Kd pid' = Kd pid
    /\ output_limits pid' = output_limits pid
    /\ (setpoint pid' = target_temperature env
        \/ py_eq (of_temp (setpoint pid')) (of_temp (target_temperature env)) = true)
    /\ _current_pid_params after_tick = _current_pid_params self
    /\ pid_base after_tick = pid_base self.
Proof.
  intros Hr Hpid. cbv zeta.
  destruct (control_outcome time force env self pid Hr Hpid) as (-> & _ & _).
  eexists. split; [reflexivity|].
  unfold py_ne.
  destruct (py_eq (of_temp (setpoint pid)) (of_temp (target_temperature env))) eqn:E;
    cbn; repeat split; auto.
Qed.

(** *** A running controller always holds a [PID] *)

Ltac keep_pid :=
  repeat preserve_step;
  try (apply preserves_put;
       first [ intros _; eexists; reflexivity
             | match goal with H : pid_present ?s |- _ => exact H end ]).

Lemma added_to_hass_keeps_pid old_state :
  preserves (pid_present (acc := acc)) (async_added_to_hass old_state).
Proof. unfold async_added_to_hass. keep_pid. Qed.

Lemma set_pid_params_keeps_pid pid_params :
  preserves (pid_present (acc := acc)) (set_pid_params pid_params).
Proof.
  unfold set_pid_params, invert_arg. keep_pid.
  intros env s Hs. rewrite retune_full.
  destruct (_pid s) eqn:Hpid; cbn [self_after]; try exact Hs.
  intros _. eexists. reflexivity.
Qed.

Lemma start_keeps_pid : preserves pid_present start.
Proof.
  intros env s Hs.
  destruct (_current_pid_params s) as [| |p] eqn:Hcur.
  - rewrite start_unset by assumption. exact Hs.
  - rewrite start_without_params by assumption. exact Hs.
  - destruct (start_with_params pid_fresh pid_resume pid_call _get_output_limits
                env s p Hcur) as (pid & -> & _).
    intros _. eexists. reflexivity.
Qed.

Lemma stop_keeps_pid : preserves pid_present stop.
Proof. intros env s _. rewrite stop_outcome. intros Hr. discriminate Hr. Qed.

Lemma control_keeps_pid time force : preserves pid_present (control time force).
Proof.
  unfold pid_control, async_control.
  cbn [_async_control base set_base AbstractPidController_Controller].
  unfold pid_async_control. keep_pid.
Qed.

Lemma perform_keeps_pid (c : call) : preserves pid_present (do_call c).
Proof.
  destruct c; cbn [perform];
    auto using added_to_hass_keeps_pid, set_pid_params_keeps_pid,
      start_keeps_pid, stop_keeps_pid, control_keeps_pid.
Qed.

(** X14: from construction on, through any calls of the host, returning
    or raising, a controller that is running holds a [PID]; so a control
    call never fails at [self._pid.setpoint]: when it raises, the
    exception is the one raised by the computation of the output. *)
Theorem running_controller_holds_a_pid name mode target pid_params inverted
    (self : AbstractPidController acc) (calls : list (Env * call)) :
  AbstractPidController_init name mode target pid_params inverted = inr self ->
  let now := after_calls calls self in
  (running (pid_base now) = true -> exists pid, _pid now = Obj pid)
  /\ forall time force env e,
       result (control time force env now) = inl e ->
       exists pid, _pid now = Obj pid
         /\ snd (pid_call (aimed env pid) (current_temperature env)) = inl e.
Proof.
  intros Hinit. cbv zeta.
  assert (Hinv : pid_present (after_calls calls self)).
  { assert (H0 : pid_present self).
    { unfold AbstractPidController_init in Hinit.
      destruct (AbstractController_init _ _ _ _) as [|b] eqn:Hb; [discriminate|].
      injection Hinit as <-. intros Hr. exfalso.
      rewrite AbstractController_init_spec in Hb.
      destruct (str_in mode _); [|discriminate].
      injection Hb as <-. discriminate Hr. }
    clear Hinit. revert self H0.
    induction calls as [|[env c] rest IH]; intros self H0; cbn [after].
    - exact H0.
    - apply IH, perform_keeps_pid, H0. }
  split; [exact Hinv|].
  intros time force env e Hres.
  destruct (running (pid_base (after_calls calls self))) eqn:Hr.
  2:{ rewrite control_stopped in Hres by assumption. discriminate Hres. }
  destruct (Hinv Hr) as [pid Hpid]. exists pid. split; [exact Hpid|].
  destruct (control_outcome time force env _ pid Hr Hpid) as (_ & Hres' & _).
  cbv zeta in Hres'. rewrite Hres' in Hres.
  destruct (snd (pid_call _ (current_temperature env))); congruence.
Qed.

End PidFurther.

(** ** The PID controller: persisted parameters *)

Lemma added_to_hass_nothing_saved {acc} env (self : AbstractPidController acc) :
  _current_pid_params (self_after (async_added_to_hass None env self))
  = (if slot_truthy (_current_pid_params self) then _current_pid_params self
     else of_option (_initial_pid_params self))
  /\ result (async_added_to_hass None env self) = inr tt.
Proof.
  unfold async_added_to_hass. rewrite bind_ret_l, bind_get.
  destruct (slot_truthy (_current_pid_params self)); split; reflexivity.
Qed.


Lemma string_append_assoc (a b c : string) :
  String.append (String.append a b) c = String.append a (String.append b c).
Proof.
  induction a as [|ch a IH]; [reflexivity|].
  change (String ch (String.append (String.append a b) c)
          = String ch (String.append a (String.append b c))).
  rewrite IH. reflexivity.
Qed.

Lemma string_append_empty (a : string) : String.append a "" = a.
Proof.
  induction a as [|ch a IH]; [reflexivity|].
  change (String ch (String.append a "") = String ch a).
  rewrite IH. reflexivity.
Qed.

(** [split(',')] cuts at the first comma after a comma-free prefix. *)
Lemma split_comma_aux_prefix (a rest pre : string) :
  no_comma a = true ->
  Py.split_comma_aux pre (String.append a (String ","%char rest))
  = String.append pre a :: Py.split_comma_aux "" rest.
Proof.
  revert pre. induction a as [|ch a IH]; intros pre Ha.
  - change (String.append "" (String ","%char rest)) with (String ","%char rest).
    cbn [Py.split_comma_aux]. change (Ascii.eqb "," ",") with true. cbn iota.
    rewrite string_append_empty. reflexivity.
  - cbn [no_comma] in Ha. apply andb_prop in Ha as [Hch Ha].
    apply negb_true_iff in Hch.
    change (String.append (String ch a) (String ","%char rest))
      with (String ch (String.append a (String ","%char rest))).
    cbn [Py.split_comma_aux]. rewrite Hch, IH by exact Ha.
    rewrite string_append_assoc. reflexivity.
Qed.

Lemma split_comma_aux_last (a pre : string) :
  no_comma a = true ->
  Py.split_comma_aux pre a = [String.append pre a].
Proof.
  revert pre. induction a as [|ch a IH]; intros pre Ha.
  - cbn [Py.split_comma_aux]. rewrite string_append_empty. reflexivity.
  - cbn [no_comma] in Ha. apply andb_prop in Ha as [Hch Ha].
    apply negb_true_iff in Hch.
    cbn [Py.split_comma_aux]. rewrite Hch, IH by exact Ha.
    rewrite string_append_assoc. reflexivity.
Qed.

Lemma split_comma_three (a b c : string) :
  no_comma a = true -> no_comma b = true -> no_comma c = true ->
  Py.split_comma
    (String.append a (String ","%char (String.append b (String ","%char c))))
  = [a; b; c].
Proof.
  intros Ha Hb Hc. unfold Py.split_comma.
  rewrite split_comma_aux_prefix, split_comma_aux_prefix, split_comma_aux_last
    by assumption.
  reflexivity.
Qed.

(** A saved string of three parts becomes the current parameters. *)
Lemma added_to_hass_three_parts {acc} env (self : AbstractPidController acc)
    (st : string) (s a b c : string) :
  String.eqb s "" = false ->
  Py.split_comma s = [a; b; c] ->
  let o := async_added_to_hass
             (Some (mkState st {[ ATTR_PID_PARAMS := PyStr s ]})) env self in
  result o = inr tt
  /\ self_after o
     = with_current (Obj (mkPidParams (PyStr a) (PyStr b) (PyStr c))) self.
Proof.
  intros Hne Hsplit. cbv zeta. unfold async_added_to_hass. cbn [attributes].
  rewrite lookup_singleton_eq. cbn [Py.truthy]. rewrite Hne.
  cbn [negb split_saved]. rewrite Hsplit. split; reflexivity.
Qed.

Section Persisted.

Context {acc : Type}.
Variable float_str : float -> string.
Variable pid_fresh : acc.
Variable pid_resume : PID acc -> pyval -> acc.
Variable pid_call : PID acc -> option float -> acc * (exn + float).
Variable _get_output_limits : AbstractPidController acc -> limits.

(** X16: parameters that are three comma-free strings survive a
    restart: what [extra_state_attributes] publishes for them is read
    back by [async_added_to_hass] as the same three strings, and is
    published again unchanged. *)
Theorem persisted_strings_round_trip env (self other : AbstractPidController acc)
    (a b c : string) :
  _current_pid_params self = Obj (mkPidParams (PyStr a) (PyStr b) (PyStr c)) ->
  no_comma a = true -> no_comma b = true -> no_comma c = true ->
  exists attrs,
    extra_state_attributes float_str self = inr attrs
    /\ result (async_added_to_hass (Some (saved_state attrs)) env other) = inr tt
    /\ _current_pid_params
         (self_after (async_added_to_hass (Some (saved_state attrs)) env other))
       = _current_pid_params self
    /\ extra_state_attributes float_str
         (self_after (async_added_to_hass (Some (saved_state attrs)) env other))
       = inr attrs.
Proof.
  intros Hcur Ha Hb Hc.
  set (s := format_params float_str (mkPidParams (PyStr a) (PyStr b) (PyStr c))).
  exists {[ ATTR_PID_PARAMS := PyStr s ]}.
  assert (Hext : extra_state_attributes float_str self
                 = inr {[ ATTR_PID_PARAMS := PyStr s ]}).
  { unfold extra_state_attributes. rewrite Hcur. reflexivity. }
  assert (Hne : String.eqb s "" = false).
  { subst s. unfold format_params. cbn. destruct a; reflexivity. }
  assert (Hsplit : Py.split_comma s = [a; b; c]).
  { subst s. unfold format_params. cbn [format_scalar kp ki kd String.append].
    apply split_comma_three; assumption. }
  destruct (added_to_hass_three_parts env other "heat" s a b c Hne Hsplit)
    as [Hres Hself].
  unfold saved_state. rewrite Hres, Hself. cbn [_current_pid_params with_current].
  rewrite Hcur. split; [exact Hext|]. repeat split.
Qed.

(** X17: from construction on, through any calls of the host,
    [extra_state_attributes] either raises [AttributeError], which it
    does as long as no parameters were set or restored, or publishes the
    current parameters as one string; it never publishes [None]. *)
Theorem published_parameters_never_none name mode target pid_params inverted
    (self : AbstractPidController acc) (calls : list (Env * call)) :
  AbstractPidController_init name mode target pid_params inverted = inr self ->
  let now := after pid_fresh pid_resume pid_call _get_output_limits calls self in
  extra_state_attributes float_str self = inl Py.AttributeError
  /\ ((_current_pid_params now = Unset
       /\ extra_state_attributes float_str now = inl Py.AttributeError)
      \/ exists p,
           _current_pid_params now = Obj p
           /\ extra_state_attributes float_str now
              = inr {[ ATTR_PID_PARAMS := PyStr (format_params float_str p) ]}).
Proof.
  intros Hinit. cbv zeta. split.
  - unfold AbstractPidController_init in Hinit.
    destruct (AbstractController_init _ _ _ _); [discriminate|].
    injection Hinit as <-. reflexivity.
  - pose proof (current_params_never_none pid_fresh pid_resume pid_call
                  _get_output_limits _ _ _ _ _ _ calls Hinit) as Hne.
    unfold extra_state_attributes.
    destruct (_current_pid_params (after _ _ _ _ calls self)) as [| |p];
      [left; auto | congruence | right; eauto].
Qed.

End Persisted.

(** ** Instances on the sample controllers *)

Lemma plain_set_pid_params_stores_verbatim_witness :
  (_mode (pid_base Sample.running_pid) <> HVAC_MODE_COOL
   /\ _inverted (pid_base Sample.running_pid) = false)
  /\ _current_pid_params
       (self_after
          (set_pid_params (Some (mkPidParams (PyStr "2.5") PyNone (PyFloat Py.zero)))
             (Sample.valve_room None) Sample.running_pid))
     = Obj (mkPidParams (PyStr "2.5") PyNone (PyFloat Py.zero)).
Proof.
  split; [split; [discriminate|reflexivity]|].
  refine (proj1 (plain_set_pid_params_stores_verbatim (Sample.valve_room None)
                   Sample.running_pid
                   (mkPidParams (PyStr "2.5") PyNone (PyFloat Py.zero)) _ _));
    [discriminate|reflexivity].
Defined.

Lemma set_pid_params_retunes_running_witness :
  exists p2,
    result (set_pid_params (Some (gains (Py.dyadic 1 0) Sample.one_tenth Py.zero))
              (Sample.valve_room None) Sample.running_pid) = inr tt
    /\ _current_pid_params
         (self_after
            (set_pid_params (Some (gains (Py.dyadic 1 0) Sample.one_tenth Py.zero))
               (Sample.valve_room None) Sample.running_pid)) = Obj p2
    /\ _pid (self_after
               (set_pid_params (Some (gains (Py.dyadic 1 0) Sample.one_tenth Py.zero))
                  (Sample.valve_room None) Sample.running_pid))
       = Obj (mkPID (kp p2) (ki p2) (kd p2) (Some Sample.t21)
                (Some Py.zero, Some (Py.dyadic 100 0)) true tt)
    /\ pid_base
         (self_after
            (set_pid_params (Some (gains (Py.dyadic 1 0) Sample.one_tenth Py.zero))
               (Sample.valve_room None) Sample.running_pid))
       = pid_base Sample.running_pid.
Proof.
  exact (set_pid_params_retunes_running (Sample.valve_room None) Sample.running_pid
           _ (Py.dyadic 1 0) Sample.one_tenth Py.zero eq_refl).
Defined.

Lemma cooling_parameters_are_stable_witness :
  (_mode (pid_base (Sample.new_pid HVAC_MODE_COOL None true)) = HVAC_MODE_COOL
   /\ Py.is_nan Sample.two_and_a_half = false
   /\ Py.feq Sample.two_and_a_half Py.zero = false)
  /\ exists x y z,
       _current_pid_params
         (self_after
            (set_pid_params (Some (gains Sample.two_and_a_half Sample.one_tenth Py.zero))
               (Sample.valve_room None) (Sample.new_pid HVAC_MODE_COOL None true)))
       = Obj (gains x y z)
       /\ _current_pid_params
            (self_after
               (set_pid_params (Some (gains x y z)) (Sample.valve_room None)
                  (self_after
                     (set_pid_params
                        (Some (gains Sample.two_and_a_half Sample.one_tenth Py.zero))
                        (Sample.valve_room None)
                        (Sample.new_pid HVAC_MODE_COOL None true)))))
          = Obj (gains x y z).
Proof.
  split; [repeat split|].
  exact (cooling_parameters_are_stable (Sample.valve_room None) (Sample.valve_room None)
           (Sample.new_pid HVAC_MODE_COOL None true)
           Sample.two_and_a_half Sample.one_tenth Py.zero eq_refl eq_refl eq_refl).
Defined.

Lemma pid_tick_applies_the_computed_output_witness :
  (running (pid_base Sample.running_pid) = true)
  /\ commands (trace (Sample.control None false
                        (Sample.valve_room (Some (Sample.entity "2.5")))
                        Sample.running_pid))
     = [ApplyOutput Sample.two_and_a_half]
  /\ result (Sample.control None false
               (Sample.valve_room (Some (Sample.entity "2.5")))
               Sample.running_pid) = inr tt.
Proof.
  split; [reflexivity|].
  exact (pid_tick_applies_the_computed_output tt (fun _ _ => tt) Sample.p_call
           Sample.valve_limits None false
           (Sample.valve_room (Some (Sample.entity "2.5")))
           Sample.running_pid _ eq_refl eq_refl).
Defined.

Lemma pid_tick_tracks_the_target_witness :
  (running (pid_base Sample.running_pid) = true)
  /\ exists pid',
       _pid (self_after (Sample.control None false (Sample.valve_room None)
                           Sample.running_pid)) = Obj pid'
       /\ Kp pid' = PyFloat Sample.two_and_a_half
       /\ Ki pid' = PyFloat Py.zero
       /\ Kd pid' = PyFloat Sample.two_and_a_half
       /\ output_limits pid' = (Some Py.zero, Some (Py.dyadic 100 0))
       /\ (setpoint pid' = Some Sample.t21
           \/ py_eq (of_temp (setpoint pid')) (of_temp (Some Sample.t21)) = true)
       /\ _current_pid_params
            (self_after (Sample.control None false (Sample.valve_room None)
                           Sample.running_pid))
          = _current_pid_params Sample.running_pid
       /\ pid_base
            (self_after (Sample.control None false (Sample.valve_room None)
                           Sample.running_pid))
          = pid_base Sample.running_pid.
Proof.
  split; [reflexivity|].
  exact (pid_tick_tracks_the_target tt (fun _ _ => tt) Sample.p_call
           Sample.valve_limits None false (Sample.valve_room None)
           Sample.running_pid _ eq_refl eq_refl).
Defined.

Lemma running_controller_holds_a_pid_witness :
  AbstractPidController_init "pid" HVAC_MODE_HEAT Sample.valve
    (Some Sample.defaults) false
  = inr (Sample.new_pid HVAC_MODE_HEAT (Some Sample.defaults) false)
  /\ exists pid,
       _pid (after tt (fun _ _ => tt) Sample.p_call Sample.valve_limits
               [ (Sample.valve_room None, AddedToHass (Some Sample.persisted));
                 (Sample.valve_room None, Start) ]
               (Sample.new_pid HVAC_MODE_HEAT (Some Sample.defaults) false))
       = Obj pid.
Proof.
  split; [reflexivity|].
  exact (proj1 (running_controller_holds_a_pid tt (fun _ _ => tt) Sample.p_call
                  Sample.valve_limits "pid" HVAC_MODE_HEAT Sample.valve
                  (Some Sample.defaults) false _
                  [ (Sample.valve_room None, AddedToHass (Some Sample.persisted));
                    (Sample.valve_room None, Start) ]
                  eq_refl) eq_refl).
Defined.

Lemma persisted_strings_round_trip_witness :
  (no_comma "2.5" = true /\ no_comma "0.1" = true /\ no_comma "0.0" = true)
  /\ exists attrs,
       extra_state_attributes (fun _ => "")
         (self_after (async_added_to_hass (Some Sample.persisted)
                        (Sample.valve_room None)
                        (Sample.new_pid HVAC_MODE_HEAT None false)))
       = inr attrs
       /\ result (async_added_to_hass (Some (saved_state attrs))
                    (Sample.valve_room None)
                    (Sample.new_pid HVAC_MODE_COOL None false)) = inr tt
       /\ _current_pid_params
            (self_after (async_added_to_hass (Some (saved_state attrs))
                           (Sample.valve_room None)
                           (Sample.new_pid HVAC_MODE_COOL None false)))
          = _current_pid_params
              (self_after (async_added_to_hass (Some Sample.persisted)
                             (Sample.valve_room None)
                             (Sample.new_pid HVAC_MODE_HEAT None false)))
       /\ extra_state_attributes (fun _ => "")
            (self_after (async_added_to_hass (Some (saved_state attrs))
                           (Sample.valve_room None)
                           (Sample.new_pid HVAC_MODE_COOL None false)))
          = inr attrs.
Proof.
  split; [repeat split|].
  exact (persisted_strings_round_trip (fun _ => "") (Sample.valve_room None)
           (self_after (async_added_to_hass (Some Sample.persisted)
                          (Sample.valve_room None)
                          (Sample.new_pid HVAC_MODE_HEAT None false)))
           (Sample.new_pid HVAC_MODE_COOL None false)
           "2.5" "0.1" "0.0" eq_refl eq_refl eq_refl eq_refl).
Defined.

Lemma published_parameters_never_none_witness :
  AbstractPidController_init "pid" HVAC_MODE_HEAT Sample.valve
    (Some Sample.defaults) false
  = inr (Sample.new_pid HVAC_MODE_HEAT (Some Sample.defaults) false)
  /\ extra_state_attributes (fun _ => "")
       (Sample.new_pid HVAC_MODE_HEAT (Some Sample.defaults) false)
     = inl Py.AttributeError.
Proof.
  split; [reflexivity|].
  exact (proj1 (published_parameters_never_none (fun _ => "") tt (fun _ _ => tt)
                  Sample.p_call Sample.valve_limits "pid" HVAC_MODE_HEAT Sample.valve
                  (Some Sample.defaults) false _ [] eq_refl)).
Defined.
